(** * Cat collar firmware: battery monitor and LED status indicator

    A shallow embedding of [src/blinky/battery_monitor.c] and
    [src/blinky/led_status_indicator.c] (with their headers), followed by
    the properties of the two modules.

    Conventions of the embedding:
    - the file-scope [static] objects of a C module become one record that
      every function takes and returns (explicit state passing);
    - [uint8_t], [uint16_t] and [uint32_t] values are integers in [Z]; the
      only arithmetic the sources do on them is [x++] on a [uint8_t], whose
      wrap-around is written out ([incr_u8]);
    - a C [float] is an IEEE-754 binary32 datum ([spec_float] at precision
      24, maximal exponent 128);
    - [app_log_*] calls only print and are left out;
    - a call through the registered function pointer is recorded in the
      list of calls a function returns. *)

From Stdlib Require Import ZArith Bool Lia.
From Stdlib Require Import Floats.SpecFloat.
From stdpp Require Import base list.

Local Open Scope Z_scope.

(* ===================================================================== *)
(** * Part I: [battery_monitor.h] / [battery_monitor.c]                  *)
(* ===================================================================== *)

Module BatteryMonitor.

(** ** C [float]: binary32 *)

Definition float : Type := spec_float.
Definition prec : Z := 24.
Definition emax : Z := 128.

(** Conversion of an integer constant to [float] (round to nearest even). *)
Definition float_of_Z (z : Z) : float := binary_normalize prec emax z 0 false.

(** A decimal literal [n/d] with suffix [f]: the binary32 closest to it. *)
Definition float_lit (n d : Z) : float :=
  SFdiv prec emax (float_of_Z n) (float_of_Z d).

(** The C operators [x > y] and [x * y] on [float]. *)
Definition float_gt (x y : float) : bool := SFltb y x.
Definition float_mul (x y : float) : float := SFmul prec emax x y.

#[global] Arguments float_of_Z : simpl never.
#[global] Arguments float_lit : simpl never.
#[global] Arguments float_gt : simpl never.
#[global] Arguments float_mul : simpl never.

(** ** battery_monitor.h *)

Definition BATTERY_LOW_THRESHOLD_PERCENT : Z := 20.
Definition BATTERY_CRITICAL_THRESHOLD_PERCENT : Z := 10.
Definition BATTERY_FULL_THRESHOLD_PERCENT : Z := 95.
Definition CHARGING_CURRENT_THRESHOLD_MA : Z := 50.

Inductive battery_state_t : Type :=
  | BATTERY_STATE_UNKNOWN
  | BATTERY_STATE_NORMAL
  | BATTERY_STATE_LOW
  | BATTERY_STATE_CRITICAL
  | BATTERY_STATE_CHARGING
  | BATTERY_STATE_FULL.

#[global] Instance battery_state_eq_dec : EqDecision battery_state_t.
Proof. solve_decision. Defined.

Record battery_status_t : Type := mk_battery_status {
  battery_percent : Z;                    (* uint8_t *)
  battery_voltage : float;
  charging_current_ma : float;
  state : battery_state_t;
  is_charging : bool;
  is_low_battery_warning_active : bool
}.

(** [battery_state_callback_t] is a function pointer; the model keeps the
    identity of the registered function and records each call made
    through it with the three arguments it receives (the third is the
    record [&g_battery_status] points to at the time of the call). *)
Definition battery_state_callback_t : Type := nat.

Record callback_call : Type := mk_call {
  call_fn : battery_state_callback_t;
  call_old_state : battery_state_t;
  call_new_state : battery_state_t;
  call_status : battery_status_t
}.

(** ** cmsis_os2.h, as far as the monitor uses it *)

Definition osTimerId_t : Type := nat.
Inductive osStatus_t : Type := osOK | osError.
Inductive sl_status_t : Type :=
  | SL_STATUS_OK
  | SL_STATUS_FAIL
  | SL_STATUS_NOT_INITIALIZED.

(** ** Global state of battery_monitor.c

    [timer_running] is the kernel's side of [g_monitor_timer]: the period
    the periodic timer currently runs with, if it runs. *)
Record monitor : Type := mk_monitor {
  g_battery_status : battery_status_t;
  g_state_callback : option battery_state_callback_t;   (* NULL = None *)
  g_monitor_timer : option osTimerId_t;                 (* NULL = None *)
  g_monitor_active : bool;
  timer_running : option Z
}.

Definition BATTERY_MONITOR_PERIOD_MS : Z := 5000.

(** Field updates ([g_battery_status.f = v;]). *)
Definition set_status (s : battery_status_t) (m : monitor) : monitor :=
  mk_monitor s (g_state_callback m) (g_monitor_timer m) (g_monitor_active m)
             (timer_running m).

Definition set_state (x : battery_state_t) (s : battery_status_t) : battery_status_t :=
  mk_battery_status (battery_percent s) (battery_voltage s) (charging_current_ma s)
                    x (is_charging s) (is_low_battery_warning_active s).

Definition set_is_charging (b : bool) (s : battery_status_t) : battery_status_t :=
  mk_battery_status (battery_percent s) (battery_voltage s) (charging_current_ma s)
                    (state s) b (is_low_battery_warning_active s).

Definition set_warning (b : bool) (s : battery_status_t) : battery_status_t :=
  mk_battery_status (battery_percent s) (battery_voltage s) (charging_current_ma s)
                    (state s) (is_charging s) b.

Definition set_readings (p : Z) (v c : float) (s : battery_status_t) : battery_status_t :=
  mk_battery_status p v c (state s) (is_charging s) (is_low_battery_warning_active s).

(** The objects as the C start-up code leaves them ([= {0}], [NULL],
    [false]). *)
Definition static_status : battery_status_t :=
  mk_battery_status 0 (S754_zero false) (S754_zero false)
                    BATTERY_STATE_UNKNOWN false false.

Definition static_monitor : monitor :=
  mk_monitor static_status None None false None.

(** ** battery_monitor.c *)

(** [osTimerNew] may fail; its result [new_timer] is an input. The
    handle is overwritten in either case: the timer it names afterwards
    is new and does not run. A timer the old handle named is neither
    stopped nor deleted; if it ran, its callback keeps arriving, which
    [OpTimerFires] below allows on every monitor. *)
Definition battery_monitor_init (new_timer : option osTimerId_t) (m : monitor)
  : sl_status_t * monitor :=
  let s := mk_battery_status 100 (float_lit 42 10) (S754_zero false)
                             BATTERY_STATE_NORMAL false false in
  let m := mk_monitor s (g_state_callback m) new_timer (g_monitor_active m)
                      None in
  match new_timer with
  | None => (SL_STATUS_FAIL, m)
  | Some _ => (SL_STATUS_OK, m)
  end.

(** [osTimerStart] may fail; its result [started] is an input. *)
Definition battery_monitor_start (started : osStatus_t) (m : monitor)
  : sl_status_t * monitor :=
  match g_monitor_timer m with
  | None => (SL_STATUS_NOT_INITIALIZED, m)
  | Some _ =>
      match started with
      | osError => (SL_STATUS_FAIL, m)
      | osOK =>
          (SL_STATUS_OK,
           mk_monitor (g_battery_status m) (g_state_callback m) (g_monitor_timer m)
                      true (Some BATTERY_MONITOR_PERIOD_MS))
      end
  end.

Definition battery_monitor_stop (m : monitor) : monitor :=
  let running := match g_monitor_timer m with
                 | Some _ => None
                 | None => timer_running m
                 end in
  let s := g_battery_status m in
  let s := if is_low_battery_warning_active s then set_warning false s else s in
  mk_monitor s (g_state_callback m) (g_monitor_timer m) false running.

Definition battery_monitor_set_callback (callback : option battery_state_callback_t)
    (m : monitor) : sl_status_t * monitor :=
  (SL_STATUS_OK,
   mk_monitor (g_battery_status m) callback (g_monitor_timer m) (g_monitor_active m)
              (timer_running m)).

Definition battery_monitor_get_status (m : monitor) : battery_status_t :=
  g_battery_status m.

Definition battery_update_state (m : monitor) : monitor :=
  let s := g_battery_status m in
  let charging :=
    float_gt (charging_current_ma s) (float_of_Z CHARGING_CURRENT_THRESHOLD_MA) in
  let s := set_is_charging charging s in
  let new_state :=
    if charging then
      if battery_percent s >=? BATTERY_FULL_THRESHOLD_PERCENT
      then BATTERY_STATE_FULL
      else BATTERY_STATE_CHARGING
    else
      if battery_percent s <=? BATTERY_CRITICAL_THRESHOLD_PERCENT
      then BATTERY_STATE_CRITICAL
      else if battery_percent s <=? BATTERY_LOW_THRESHOLD_PERCENT
      then BATTERY_STATE_LOW
      else BATTERY_STATE_NORMAL in
  set_status (set_state new_state s) m.

Definition battery_handle_state_change (old_state new_state : battery_state_t)
    (m : monitor) : monitor * list callback_call :=
  let s := g_battery_status m in
  let s :=
    match new_state with
    | BATTERY_STATE_LOW | BATTERY_STATE_CRITICAL =>
        if negb (is_low_battery_warning_active s) then set_warning true s else s
    | BATTERY_STATE_CHARGING =>
        if is_low_battery_warning_active s then set_warning false s else s
    | BATTERY_STATE_FULL =>
        if is_low_battery_warning_active s then set_warning false s else s
    | BATTERY_STATE_NORMAL =>
        if is_low_battery_warning_active s then set_warning false s else s
    | BATTERY_STATE_UNKNOWN => s                         (* default: *)
    end in
  let m := set_status s m in
  match g_state_callback m with
  | Some f => (m, [mk_call f old_state new_state (g_battery_status m)])
  | None => (m, [])
  end.

Definition battery_monitor_force_update (m : monitor) : monitor :=
  battery_update_state m.

Definition battery_monitor_update_values
    (battery_percent : Z) (battery_voltage charging_current_ma : float)
    (m : monitor) : monitor * list callback_call :=
  let old_state := state (g_battery_status m) in
  let m := set_status (set_readings battery_percent battery_voltage
                                    charging_current_ma (g_battery_status m)) m in
  let m := battery_update_state m in
  if decide (state (g_battery_status m) <> old_state)
  then battery_handle_state_change old_state (state (g_battery_status m)) m
  else (m, []).

Definition battery_monitor_timer_callback (m : monitor)
  : monitor * list callback_call :=
  if negb (g_monitor_active m) then (m, [])
  else
    let battery_pct := 85 in
    let battery_v := float_lit 38 10 in
    let charging_a := S754_zero false in
    battery_monitor_update_values battery_pct battery_v
      (float_mul charging_a (float_of_Z 1000)) m.

Definition battery_monitor_simulate_low_battery (m : monitor) :=
  battery_monitor_update_values 15 (float_lit 32 10) (S754_zero false) m.

Definition battery_monitor_simulate_charging_start (m : monitor) :=
  battery_monitor_update_values 30 (float_lit 35 10) (float_of_Z 500) m.

Definition battery_monitor_simulate_charging_complete (m : monitor) :=
  battery_monitor_update_values 100 (float_lit 42 10) (float_of_Z 20) m.

(** ** The public operations as a transition system *)

Inductive operation : Type :=
  | OpInit (new_timer : option osTimerId_t)
  | OpStart (started : osStatus_t)
  | OpStop
  | OpSetCallback (callback : option battery_state_callback_t)
  | OpForceUpdate
  | OpUpdateValues (percent : Z) (voltage current_ma : float)
  | OpTimerFires
  | OpSimulateLowBattery
  | OpSimulateChargingStart
  | OpSimulateChargingComplete.

Definition run (o : operation) (m : monitor) : monitor * list callback_call :=
  match o with
  | OpInit t => (snd (battery_monitor_init t m), [])
  | OpStart r => (snd (battery_monitor_start r m), [])
  | OpStop => (battery_monitor_stop m, [])
  | OpSetCallback f => (snd (battery_monitor_set_callback f m), [])
  | OpForceUpdate => (battery_monitor_force_update m, [])
  | OpUpdateValues p v c => battery_monitor_update_values p v c m
  | OpTimerFires => battery_monitor_timer_callback m
  | OpSimulateLowBattery => battery_monitor_simulate_low_battery m
  | OpSimulateChargingStart => battery_monitor_simulate_charging_start m
  | OpSimulateChargingComplete => battery_monitor_simulate_charging_complete m
  end.

(** The monitors that exist after [battery_monitor_init] has run: the
    result of an [init] on any earlier monitor, and whatever a public
    operation makes of such a monitor. *)
Inductive initialized : monitor -> Prop :=
  | initialized_init t m0 :
      initialized (snd (battery_monitor_init t m0))
  | initialized_run o m :
      initialized m -> initialized (fst (run o m)).

(** ** Notions used in the statements below *)

(** The readings a monitor currently stores, fed back as an update. *)
Definition OpUpdateStored (m : monitor) : operation :=
  let s := g_battery_status m in
  OpUpdateValues (battery_percent s) (battery_voltage s) (charging_current_ma s).

(** The state is the classification of the stored readings already. *)
Definition classified (m : monitor) : Prop := battery_update_state m = m.


(** ** Notions used in the further properties *)

(** The warning flag is up only in LOW or CRITICAL. *)
Definition warning_justified (m : monitor) : Prop :=
  is_low_battery_warning_active (g_battery_status m) = true ->
  state (g_battery_status m) = BATTERY_STATE_LOW
  \/ state (g_battery_status m) = BATTERY_STATE_CRITICAL.

(** What one [update_values] call hands to the observer. *)
Definition well_formed_calls (m m' : monitor) (calls : list callback_call) : Prop :=
  (length calls <= 1)%nat
  /\ (g_state_callback m = None -> calls = [])
  /\ forall c, c ∈ calls ->
       g_state_callback m = Some (call_fn c)
       /\ call_old_state c = state (g_battery_status m)
       /\ call_new_state c = state (g_battery_status m')
       /\ call_old_state c <> call_new_state c
       /\ call_new_state c <> BATTERY_STATE_UNKNOWN
       /\ call_status c = g_battery_status m'.

End BatteryMonitor.

(* ===================================================================== *)
(** * Part II: [led_status_indicator.h] / [led_status_indicator.c]       *)
(* ===================================================================== *)

Module LedStatusIndicator.

(** ** led_status_indicator.h *)

(** [led_status_t] has no negative enumerator, so a value of the type is
    an unsigned number; [status >= LED_STATUS_MAX] is a comparison of
    such numbers. *)
Definition led_status_t : Type := N.

Definition LED_STATUS_POWER_ON : led_status_t := 0%N.
Definition LED_STATUS_BLE_PAIRING : led_status_t := 1%N.
Definition LED_STATUS_BLE_PAIR_SUCCESS : led_status_t := 2%N.
Definition LED_STATUS_BLE_PAIR_FAIL : led_status_t := 3%N.
Definition LED_STATUS_FACTORY_RESET : led_status_t := 4%N.
Definition LED_STATUS_LOW_BATTERY : led_status_t := 5%N.
Definition LED_STATUS_OTA_UPDATE : led_status_t := 6%N.
Definition LED_STATUS_OTA_SUCCESS : led_status_t := 7%N.
Definition LED_STATUS_OTA_FAIL : led_status_t := 8%N.
Definition LED_STATUS_CHARGING : led_status_t := 9%N.
Definition LED_STATUS_CHARGE_COMPLETE : led_status_t := 10%N.
Definition LED_STATUS_OFF : led_status_t := 11%N.
Definition LED_STATUS_MAX : led_status_t := 12%N.

Inductive led_pattern_state_t : Type :=
  | LED_PATTERN_STATE_IDLE
  | LED_PATTERN_STATE_ACTIVE
  | LED_PATTERN_STATE_COMPLETE.

#[global] Instance led_pattern_state_eq_dec : EqDecision led_pattern_state_t.
Proof. solve_decision. Defined.

Record led_pattern_step_t : Type := mk_step {
  on_time_ms : Z;        (* uint16_t *)
  off_time_ms : Z;       (* uint16_t *)
  repeat_count : Z;      (* uint8_t, 0 = infinite *)
  flash_count : Z        (* uint8_t *)
}.

(** [steps] points to the first element of a constant array: [None] is
    the null pointer, [Some l] a pointer to an array holding [l]. *)
Record led_pattern_config_t : Type := mk_config {
  steps : option (list led_pattern_step_t);
  step_count : Z;        (* uint8_t *)
  auto_stop : bool;
  auto_stop_delay_ms : Z (* uint16_t *)
}.

(** ** cmsis_os2.h and blinky.h, as far as the indicator uses them *)

(** A timer handle together with the kernel's state of the timer it
    names: [TimerNull] is the [NULL] handle (no timer was created),
    which [osTimerStart] and [osTimerStop] reject without effect. *)
Inductive osTimer : Type :=
  | TimerNull
  | TimerStopped
  | TimerRunning (delay_ms : Z).

Definition osTimerNew (created : bool) : osTimer :=
  if created then TimerStopped else TimerNull.

Definition osTimerStart (t : osTimer) (ticks : Z) : osTimer :=
  match t with
  | TimerNull => TimerNull
  | _ => TimerRunning ticks
  end.

Definition osTimerStop (t : osTimer) : osTimer :=
  match t with
  | TimerNull => TimerNull
  | _ => TimerStopped
  end.

Definition is_running (t : osTimer) : bool :=
  match t with
  | TimerRunning _ => true
  | _ => false
  end.

Inductive sl_status_t : Type :=
  | SL_STATUS_OK
  | SL_STATUS_FAIL
  | SL_STATUS_INVALID_PARAMETER.

(** ** The state the module works on

    The first ten fields are those of [led_status_context_t]
    ([g_led_context]); [blue_led] is what the last
    [leds_play(BLUE_LED, _)] left the LED at, and [kernel_tick] is what
    [osKernelGetTickCount()] returns. *)
Record led_system : Type := mk_system {
  current_status : led_status_t;
  pattern_state : led_pattern_state_t;
  current_step : Z;            (* uint8_t *)
  current_flash : Z;           (* uint8_t *)
  repeat_counter : Z;          (* uint8_t *)
  step_start_time : Z;         (* uint32_t *)
  pattern_start_time : Z;      (* uint32_t *)
  led_state : bool;
  timer_handle : osTimer;
  auto_stop_timer : osTimer;
  blue_led : bool;
  kernel_tick : Z
}.

Definition set_current_status (v : led_status_t) (s : led_system) : led_system :=
  mk_system v (pattern_state s) (current_step s) (current_flash s) (repeat_counter s)
            (step_start_time s) (pattern_start_time s) (led_state s) (timer_handle s)
            (auto_stop_timer s) (blue_led s) (kernel_tick s).

Definition set_pattern_state (v : led_pattern_state_t) (s : led_system) : led_system :=
  mk_system (current_status s) v (current_step s) (current_flash s) (repeat_counter s)
            (step_start_time s) (pattern_start_time s) (led_state s) (timer_handle s)
            (auto_stop_timer s) (blue_led s) (kernel_tick s).

Definition set_current_step (v : Z) (s : led_system) : led_system :=
  mk_system (current_status s) (pattern_state s) v (current_flash s) (repeat_counter s)
            (step_start_time s) (pattern_start_time s) (led_state s) (timer_handle s)
            (auto_stop_timer s) (blue_led s) (kernel_tick s).

Definition set_current_flash (v : Z) (s : led_system) : led_system :=
  mk_system (current_status s) (pattern_state s) (current_step s) v (repeat_counter s)
            (step_start_time s) (pattern_start_time s) (led_state s) (timer_handle s)
            (auto_stop_timer s) (blue_led s) (kernel_tick s).

Definition set_repeat_counter (v : Z) (s : led_system) : led_system :=
  mk_system (current_status s) (pattern_state s) (current_step s) (current_flash s) v
            (step_start_time s) (pattern_start_time s) (led_state s) (timer_handle s)
            (auto_stop_timer s) (blue_led s) (kernel_tick s).

Definition set_step_start_time (v : Z) (s : led_system) : led_system :=
  mk_system (current_status s) (pattern_state s) (current_step s) (current_flash s)
            (repeat_counter s) v (pattern_start_time s) (led_state s) (timer_handle s)
            (auto_stop_timer s) (blue_led s) (kernel_tick s).

Definition set_pattern_start_time (v : Z) (s : led_system) : led_system :=
  mk_system (current_status s) (pattern_state s) (current_step s) (current_flash s)
            (repeat_counter s) (step_start_time s) v (led_state s) (timer_handle s)
            (auto_stop_timer s) (blue_led s) (kernel_tick s).

Definition set_timer_handle (v : osTimer) (s : led_system) : led_system :=
  mk_system (current_status s) (pattern_state s) (current_step s) (current_flash s)
            (repeat_counter s) (step_start_time s) (pattern_start_time s) (led_state s) v
            (auto_stop_timer s) (blue_led s) (kernel_tick s).

Definition set_auto_stop_timer (v : osTimer) (s : led_system) : led_system :=
  mk_system (current_status s) (pattern_state s) (current_step s) (current_flash s)
            (repeat_counter s) (step_start_time s) (pattern_start_time s) (led_state s)
            (timer_handle s) v (blue_led s) (kernel_tick s).

(** [x++] on a [uint8_t]. *)
Definition incr_u8 (x : Z) : Z := (x + 1) mod 256.

(** ** Results of the functions

    [Fault] is C undefined behaviour: a read through a null pointer or
    outside an array. [OutOfFuel] only bounds the recursion of the model
    (the C functions call each other without a bound of their own). *)
Inductive outcome (A : Type) : Type :=
  | Done (a : A)
  | Fault
  | OutOfFuel.
Arguments Done {A} a.
Arguments Fault {A}.
Arguments OutOfFuel {A}.

(** Sequencing: the first [Fault] or [OutOfFuel] ends the computation. *)
#[global] Instance outcome_bind : MBind outcome := fun A B f x =>
  match x with
  | Done a => f a
  | Fault => Fault
  | OutOfFuel => OutOfFuel
  end.

Definition read {A : Type} (o : option A) : outcome A :=
  match o with
  | Some a => Done a
  | None => Fault
  end.

(** [&table[status]] followed by a read of the entry. *)
Definition pattern_of (table : list led_pattern_config_t) (status : led_status_t)
  : outcome led_pattern_config_t :=
  read (table !! N.to_nat status).

(** [config->steps[i]], read. *)
Definition step_at (config : led_pattern_config_t) (i : Z) : outcome led_pattern_step_t :=
  match steps config with
  | None => Fault
  | Some l => if i <? 0 then Fault else read (l !! Z.to_nat i)
  end.

(** ** led_status_indicator.c: the pattern table *)

Definition pattern_power_on : list led_pattern_step_t := [mk_step 2000 0 1 1].
Definition pattern_ble_pairing : list led_pattern_step_t := [mk_step 200 800 0 1].
Definition pattern_ble_pair_success : list led_pattern_step_t := [mk_step 2000 0 1 1].
Definition pattern_ble_pair_fail : list led_pattern_step_t :=
  [mk_step 200 200 1 2; mk_step 0 600 1 1; mk_step 200 200 0 2].
Definition pattern_factory_reset : list led_pattern_step_t := [mk_step 2000 0 1 1].
Definition pattern_ota_update : list led_pattern_step_t := [mk_step 200 2800 0 1].
Definition pattern_ota_fail : list led_pattern_step_t :=
  [mk_step 100 100 1 3; mk_step 0 2700 1 1].
Definition pattern_off : list led_pattern_step_t := [mk_step 0 0 0 0].

(** An array of [n] elements with designated initializers
    [[i] = c]: every element is zero unless an initializer names it. *)
Definition zero_config : led_pattern_config_t := mk_config None 0 false 0.

Definition designated (n : led_status_t)
    (inits : list (led_status_t * led_pattern_config_t)) : list led_pattern_config_t :=
  foldl (fun table ic => <[N.to_nat (fst ic) := snd ic]> table)
        (replicate (N.to_nat n) zero_config) inits.

Definition led_patterns : list led_pattern_config_t :=
  designated LED_STATUS_MAX
    [ (LED_STATUS_POWER_ON, mk_config (Some pattern_power_on) 1 true 0);
      (LED_STATUS_BLE_PAIRING, mk_config (Some pattern_ble_pairing) 1 false 0);
      (LED_STATUS_BLE_PAIR_SUCCESS, mk_config (Some pattern_ble_pair_success) 1 true 0);
      (LED_STATUS_BLE_PAIR_FAIL, mk_config (Some pattern_ble_pair_fail) 3 false 0);
      (LED_STATUS_FACTORY_RESET, mk_config (Some pattern_factory_reset) 1 true 0);
      (LED_STATUS_OTA_UPDATE, mk_config (Some pattern_ota_update) 1 false 0);
      (LED_STATUS_OTA_SUCCESS, mk_config (Some pattern_off) 1 true 0);
      (LED_STATUS_OTA_FAIL, mk_config (Some pattern_ota_fail) 2 false 0);
      (LED_STATUS_OFF, mk_config (Some pattern_off) 1 true 0) ].

(** ** led_status_indicator.c: the functions

    The functions take the pattern table as a parameter; the firmware
    runs them on [led_patterns]. *)

Definition led_set_physical_state (on : bool) (s : led_system) : led_system :=
  mk_system (current_status s) (pattern_state s) (current_step s) (current_flash s)
            (repeat_counter s) (step_start_time s) (pattern_start_time s) on
            (timer_handle s) (auto_stop_timer s) on (kernel_tick s).

Definition led_status_stop (s : led_system) : led_system :=
  let s := set_timer_handle (osTimerStop (timer_handle s)) s in
  let s := set_auto_stop_timer (osTimerStop (auto_stop_timer s)) s in
  let s := led_set_physical_state false s in
  let s := set_pattern_state LED_PATTERN_STATE_IDLE s in
  set_current_status LED_STATUS_OFF s.

Section Sequencer.

Variable table : list led_pattern_config_t.

Fixpoint led_start_next_step (fuel : nat) (s : led_system) : outcome led_system :=
  match fuel with
  | O => OutOfFuel
  | S fuel =>
      config ← pattern_of table (current_status s);
      let continue (s : led_system) :=
        let s := set_current_flash 0 s in
        let s := set_step_start_time (kernel_tick s) s in
        led_process_current_step fuel s in
      if current_step s >=? step_count config then
        first_step ← step_at config 0;
        if repeat_count first_step =? 0 then
          continue (set_current_step 0 s)
        else
          let s := set_pattern_state LED_PATTERN_STATE_COMPLETE s in
          let s := led_set_physical_state false s in
          if auto_stop config && (auto_stop_delay_ms config >? 0) then
            Done (set_auto_stop_timer
                    (osTimerStart (auto_stop_timer s) (auto_stop_delay_ms config)) s)
          else Done s
      else continue s
  end
with led_process_current_step (fuel : nat) (s : led_system) : outcome led_system :=
  match fuel with
  | O => OutOfFuel
  | S fuel =>
      config ← pattern_of table (current_status s);
      step ← step_at config (current_step s);
      if (current_flash s >=? flash_count step) && (flash_count step >? 0) then
        led_start_next_step fuel (set_current_step (incr_u8 (current_step s)) s)
      else
        let '(next_led_state, next_delay, s) :=
          if (on_time_ms step =? 0) && (off_time_ms step =? 0) then
            (false, 1000, s)
          else if negb (led_state s) then
            (true, on_time_ms step, s)
          else
            (false, off_time_ms step, set_current_flash (incr_u8 (current_flash s)) s) in
        let s := led_set_physical_state next_led_state s in
        if next_delay >? 0 then
          Done (set_timer_handle (osTimerStart (timer_handle s) next_delay) s)
        else
          led_process_current_step fuel s
  end.

Definition led_status_indicator_init (timer_created auto_stop_created : bool)
    (s : led_system) : sl_status_t * led_system :=
  let s := set_current_status LED_STATUS_OFF s in
  let s := set_pattern_state LED_PATTERN_STATE_IDLE s in
  let s := set_current_step 0 s in
  let s := set_current_flash 0 s in
  let s := set_repeat_counter 0 s in
  let s := mk_system (current_status s) (pattern_state s) (current_step s)
                     (current_flash s) (repeat_counter s) (step_start_time s)
                     (pattern_start_time s) false (timer_handle s)
                     (auto_stop_timer s) (blue_led s) (kernel_tick s) in
  let s := set_timer_handle (osTimerNew timer_created) s in
  match timer_handle s with
  | TimerNull => (SL_STATUS_FAIL, s)
  | _ =>
      let s := set_auto_stop_timer (osTimerNew auto_stop_created) s in
      match auto_stop_timer s with
      | TimerNull => (SL_STATUS_FAIL, s)
      | _ => (SL_STATUS_OK, led_set_physical_state false s)
      end
  end.

Definition led_status_set (fuel : nat) (status : led_status_t) (s : led_system)
  : outcome (sl_status_t * led_system) :=
  if (LED_STATUS_MAX <=? status)%N then Done (SL_STATUS_INVALID_PARAMETER, s)
  else
    let s := set_timer_handle (osTimerStop (timer_handle s)) s in
    let s := set_auto_stop_timer (osTimerStop (auto_stop_timer s)) s in
    let s := set_current_status status s in
    let s := set_pattern_state LED_PATTERN_STATE_ACTIVE s in
    let s := set_current_step 0 s in
    let s := set_current_flash 0 s in
    let s := set_repeat_counter 0 s in
    let s := set_pattern_start_time (kernel_tick s) s in
    if (status =? LED_STATUS_OFF)%N || (status =? LED_STATUS_OTA_SUCCESS)%N then
      let s := led_set_physical_state false s in
      let s := set_pattern_state LED_PATTERN_STATE_COMPLETE s in
      Done (SL_STATUS_OK, s)
    else
      s ← led_start_next_step fuel s;
      Done (SL_STATUS_OK, s).

Definition led_status_get_current (s : led_system) : led_status_t :=
  current_status s.

Definition led_status_is_active (s : led_system) : bool :=
  bool_decide (pattern_state s = LED_PATTERN_STATE_ACTIVE).

Definition led_timer_callback (fuel : nat) (s : led_system) : outcome led_system :=
  if bool_decide (pattern_state s = LED_PATTERN_STATE_ACTIVE)
  then led_process_current_step fuel s
  else Done s.

Definition auto_stop_timer_callback (s : led_system) : led_system :=
  led_status_stop s.

End Sequencer.

(** The object as the C start-up code leaves it ([= {0}]); the LED is
    off at reset. *)
Definition static_system (tick : Z) : led_system :=
  mk_system LED_STATUS_POWER_ON LED_PATTERN_STATE_IDLE 0 0 0 0 0 false
            TimerNull TimerNull false tick.

(** ** The timer service, seen from the module

    Both timers are created with [osTimerOnce]: when one expires the
    kernel stops it and then runs its callback. *)
Definition expired (t : osTimer) : osTimer :=
  match t with
  | TimerRunning _ => TimerStopped
  | _ => t
  end.

Definition led_timer_expires (table : list led_pattern_config_t) (fuel : nat)
    (s : led_system) : outcome led_system :=
  led_timer_callback table fuel (set_timer_handle (expired (timer_handle s)) s).

Definition auto_stop_timer_expires (s : led_system) : led_system :=
  auto_stop_timer_callback (set_auto_stop_timer (expired (auto_stop_timer s)) s).

(** [n] expiries of the step timer in a row, nothing else in between. *)
Fixpoint led_timer_expires_n (table : list led_pattern_config_t) (fuel n : nat)
    (s : led_system) : outcome led_system :=
  match n with
  | O => Done s
  | S n => s ← led_timer_expires table fuel s; led_timer_expires_n table fuel n s
  end.

(** ** Notions used in the statements below *)

(** The values the C types of a step admit. *)
Definition step_in_range (step : led_pattern_step_t) : Prop :=
  0 <= on_time_ms step < 65536 /\ 0 <= off_time_ms step < 65536
  /\ 0 <= repeat_count step < 256 /\ 0 <= flash_count step < 256.

(** A table entry whose [steps] points to an array of exactly
    [step_count] steps, at least one. *)
Definition well_formed (config : led_pattern_config_t) : Prop :=
  exists l, steps config = Some l
            /\ step_count config = Z.of_nat (length l)
            /\ 0 < step_count config < 256
            /\ Forall step_in_range l.

(** [current_step] indexes a step of the entry. *)
Definition valid_step (config : led_pattern_config_t) (s : led_system) : Prop :=
  0 <= current_step s < step_count config.

(** A call left the sequencer in the same pattern and phase, at a valid
    step, with the step timer started for a positive delay. *)
Definition continues (config : led_pattern_config_t) (s s' : led_system) : Prop :=
  current_status s' = current_status s
  /\ pattern_state s' = pattern_state s
  /\ valid_step config s'
  /\ (exists d, 0 < d /\ timer_handle s' = osTimerStart (timer_handle s) d)
  /\ auto_stop_timer s' = auto_stop_timer s
  /\ blue_led s' = led_state s'.

(** A call finished the pattern: phase COMPLETE, LED off, the step timer
    untouched, the auto-stop timer started when the entry asks for it. *)
Definition completes (config : led_pattern_config_t) (s s' : led_system) : Prop :=
  current_status s' = current_status s
  /\ pattern_state s' = LED_PATTERN_STATE_COMPLETE
  /\ led_state s' = false
  /\ blue_led s' = false
  /\ current_step s' = step_count config
  /\ timer_handle s' = timer_handle s
  /\ auto_stop_timer s' =
       if auto_stop config && (auto_stop_delay_ms config >? 0)
       then osTimerStart (auto_stop_timer s) (auto_stop_delay_ms config)
       else auto_stop_timer s.

(** What a call of the step-advance logic may leave behind, for an entry
    whose first step is [first]. *)
Definition settled (config : led_pattern_config_t) (first : led_pattern_step_t)
    (s s' : led_system) : Prop :=
  continues config s s' \/ (repeat_count first <> 0 /\ completes config s s').

(** [continues], [completes] and [settled] only look at four fields of
    the state a call started from. *)
Definition same_frame (s1 s2 : led_system) : Prop :=
  current_status s1 = current_status s2
  /\ pattern_state s1 = pattern_state s2
  /\ timer_handle s1 = timer_handle s2
  /\ auto_stop_timer s1 = auto_stop_timer s2.

(** The step does not ask to move on: [current_flash] has not reached a
    positive [flash_count]. *)
Definition stays_in_step (step : led_pattern_step_t) (s : led_system) : Prop :=
  (current_flash s >=? flash_count step) && (flash_count step >? 0) = false.

(** The statuses [led_patterns] has an initializer for. *)
Definition populated : list led_status_t :=
  [LED_STATUS_POWER_ON; LED_STATUS_BLE_PAIRING; LED_STATUS_BLE_PAIR_SUCCESS;
   LED_STATUS_BLE_PAIR_FAIL; LED_STATUS_FACTORY_RESET; LED_STATUS_OTA_UPDATE;
   LED_STATUS_OTA_SUCCESS; LED_STATUS_OTA_FAIL; LED_STATUS_OFF].

(** Fuel that every call on a well-formed entry stays within. *)
Definition enough_fuel : nat := 8.


(** ** led_status_indicator.c: the convenience functions *)

(** The convenience functions: [led_status_set] with its result dropped. *)
Definition led_status_power_on (table : list led_pattern_config_t) (fuel : nat)
    (s : led_system) : outcome led_system :=
  r ← led_status_set table fuel LED_STATUS_POWER_ON s; Done (snd r).

Definition led_status_ble_enter_pairing (table : list led_pattern_config_t)
    (fuel : nat) (s : led_system) : outcome led_system :=
  r ← led_status_set table fuel LED_STATUS_BLE_PAIRING s; Done (snd r).

Definition led_status_ble_pairing_success (table : list led_pattern_config_t)
    (fuel : nat) (s : led_system) : outcome led_system :=
  r ← led_status_set table fuel LED_STATUS_BLE_PAIR_SUCCESS s; Done (snd r).

Definition led_status_ble_pairing_failed (table : list led_pattern_config_t)
    (fuel : nat) (s : led_system) : outcome led_system :=
  r ← led_status_set table fuel LED_STATUS_BLE_PAIR_FAIL s; Done (snd r).

Definition led_status_factory_reset (table : list led_pattern_config_t)
    (fuel : nat) (s : led_system) : outcome led_system :=
  r ← led_status_set table fuel LED_STATUS_FACTORY_RESET s; Done (snd r).

Definition led_status_ota_update_start (table : list led_pattern_config_t)
    (fuel : nat) (s : led_system) : outcome led_system :=
  r ← led_status_set table fuel LED_STATUS_OTA_UPDATE s; Done (snd r).

Definition led_status_ota_update_success (table : list led_pattern_config_t)
    (fuel : nat) (s : led_system) : outcome led_system :=
  r ← led_status_set table fuel LED_STATUS_OTA_SUCCESS s; Done (snd r).

Definition led_status_ota_update_failed (table : list led_pattern_config_t)
    (fuel : nat) (s : led_system) : outcome led_system :=
  r ← led_status_set table fuel LED_STATUS_OTA_FAIL s; Done (snd r).

(** ** The indicator as a transition system *)

Inductive led_event : Type :=
  | EvSet (status : led_status_t)      (* led_status_set(status) *)
  | EvStop                             (* led_status_stop() *)
  | EvStepTimer                        (* the step timer expires *)
  | EvAutoStopTimer                    (* the auto-stop timer expires *)
  | EvTick (now : Z).                  (* the kernel tick count becomes [now] *)

Definition set_kernel_tick (now : Z) (s : led_system) : led_system :=
  mk_system (current_status s) (pattern_state s) (current_step s) (current_flash s)
            (repeat_counter s) (step_start_time s) (pattern_start_time s) (led_state s)
            (timer_handle s) (auto_stop_timer s) (blue_led s) now.

(** A timer expires only while it runs. *)
Definition led_run (table : list led_pattern_config_t) (fuel : nat)
    (ev : led_event) (s : led_system) : outcome led_system :=
  match ev with
  | EvSet status => r ← led_status_set table fuel status s; Done (snd r)
  | EvStop => Done (led_status_stop s)
  | EvStepTimer =>
      if is_running (timer_handle s) then led_timer_expires table fuel s else Done s
  | EvAutoStopTimer =>
      if is_running (auto_stop_timer s) then Done (auto_stop_timer_expires s) else Done s
  | EvTick now => Done (set_kernel_tick now s)
  end.

(** The states the indicator can be in once a call of
    [led_status_indicator_init] has succeeded. The call may be a repeated
    one, made in any state: [init] overwrites both handles without
    stopping or deleting the timers they named, so a timer that ran keeps
    running and its callback arrives later, whatever the context then
    says. [reach_stale_step] and [reach_stale_auto_stop] are these
    arrivals; they are allowed in every state. *)
Inductive led_reachable (table : list led_pattern_config_t) : led_system -> Prop :=
  | reach_init s0 :
      led_reachable table (snd (led_status_indicator_init true true s0))
  | reach_run fuel ev s s' :
      led_reachable table s ->
      led_run table fuel ev s = Done s' ->
      led_reachable table s'
  | reach_stale_step fuel s s' :
      led_reachable table s ->
      led_timer_callback table fuel s = Done s' ->
      led_reachable table s'
  | reach_stale_auto_stop s :
      led_reachable table s ->
      led_reachable table (auto_stop_timer_callback s).

(** The states of a run in which [led_status_indicator_init] is called
    once, on the start-up context, and succeeds: no handle is ever
    overwritten, and a callback arrives only when its timer expires. *)
Inductive led_started (table : list led_pattern_config_t) : led_system -> Prop :=
  | started_init tick :
      led_started table
        (snd (led_status_indicator_init true true (static_system tick)))
  | started_run fuel ev s s' :
      led_started table s ->
      led_run table fuel ev s = Done s' ->
      led_started table s'.

(** ** Notions used in the further properties *)

(** What a call of the step-advance logic that returns has done: the
    step timer armed for a positive delay with the phase kept, or the
    pattern finished. *)
Definition step_effect (table : list led_pattern_config_t) (s s' : led_system) : Prop :=
  current_status s' = current_status s
  /\ repeat_counter s' = repeat_counter s
  /\ pattern_start_time s' = pattern_start_time s
  /\ kernel_tick s' = kernel_tick s
  /\ blue_led s' = led_state s'
  /\ ((pattern_state s' = pattern_state s
       /\ auto_stop_timer s' = auto_stop_timer s
       /\ exists d, 0 < d /\ timer_handle s' = osTimerStart (timer_handle s) d)
      \/ (pattern_state s' = LED_PATTERN_STATE_COMPLETE
          /\ led_state s' = false
          /\ timer_handle s' = timer_handle s
          /\ exists config,
               pattern_of table (current_status s) = Done config
               /\ auto_stop_timer s' =
                    if auto_stop config && (auto_stop_delay_ms config >? 0)
                    then osTimerStart (auto_stop_timer s) (auto_stop_delay_ms config)
                    else auto_stop_timer s)).

(** The fields [step_effect] reads of the state a call starts from. *)
Definition same_entry (s1 s2 : led_system) : Prop :=
  current_status s1 = current_status s2
  /\ repeat_counter s1 = repeat_counter s2
  /\ pattern_start_time s1 = pattern_start_time s2
  /\ kernel_tick s1 = kernel_tick s2
  /\ pattern_state s1 = pattern_state s2
  /\ timer_handle s1 = timer_handle s2
  /\ auto_stop_timer s1 = auto_stop_timer s2.

(** What holds of every state once init has succeeded, repeated inits
    and the callbacks of overwritten timers included. *)
Definition context_invariant (s : led_system) : Prop :=
  blue_led s = led_state s
  /\ (current_status s < LED_STATUS_MAX)%N
  /\ repeat_counter s = 0
  /\ timer_handle s <> TimerNull
  /\ auto_stop_timer s <> TimerNull
  /\ (pattern_state s = LED_PATTERN_STATE_ACTIVE -> is_running (timer_handle s) = true)
  /\ (is_running (auto_stop_timer s) = true ->
      pattern_state s = LED_PATTERN_STATE_COMPLETE)
  /\ (pattern_state s = LED_PATTERN_STATE_IDLE -> current_status s = LED_STATUS_OFF)
  /\ (pattern_state s <> LED_PATTERN_STATE_ACTIVE -> led_state s = false).

(** What holds of every state of a run with one init, at start-up. *)
Definition sequencer_invariant (s : led_system) : Prop :=
  blue_led s = led_state s
  /\ (current_status s < LED_STATUS_MAX)%N
  /\ repeat_counter s = 0
  /\ timer_handle s <> TimerNull
  /\ auto_stop_timer s <> TimerNull
  /\ (is_running (timer_handle s) = true <-> pattern_state s = LED_PATTERN_STATE_ACTIVE)
  /\ (is_running (auto_stop_timer s) = true ->
      pattern_state s = LED_PATTERN_STATE_COMPLETE)
  /\ (pattern_state s = LED_PATTERN_STATE_IDLE -> current_status s = LED_STATUS_OFF)
  /\ (pattern_state s <> LED_PATTERN_STATE_ACTIVE -> led_state s = false).

(** What a call of [led_status_set] that returns has done. *)
Definition set_effect (table : list led_pattern_config_t) (status : led_status_t)
    (s : led_system) (r : sl_status_t) (s' : led_system) : Prop :=
  ((LED_STATUS_MAX <= status)%N /\ r = SL_STATUS_INVALID_PARAMETER /\ s' = s)
  \/ ((status < LED_STATUS_MAX)%N /\ r = SL_STATUS_OK
      /\ current_status s' = status
      /\ repeat_counter s' = 0
      /\ pattern_start_time s' = kernel_tick s
      /\ blue_led s' = led_state s'
      /\ ((pattern_state s' = LED_PATTERN_STATE_ACTIVE
           /\ auto_stop_timer s' = osTimerStop (auto_stop_timer s)
           /\ exists d, 0 < d
                /\ timer_handle s' = osTimerStart (osTimerStop (timer_handle s)) d)
          \/ (pattern_state s' = LED_PATTERN_STATE_COMPLETE
              /\ led_state s' = false
              /\ timer_handle s' = osTimerStop (timer_handle s)
              /\ (auto_stop_timer s' = osTimerStop (auto_stop_timer s)
                  \/ exists config,
                       pattern_of table status = Done config
                       /\ auto_stop config = true
                       /\ 0 < auto_stop_delay_ms config
                       /\ auto_stop_timer s' =
                            osTimerStart (osTimerStop (auto_stop_timer s))
                                         (auto_stop_delay_ms config))))).

(** The two phases of such a pattern: LED on with no flash counted, LED
    off with the flash counted. *)
Definition blink_phase (on : bool) (s : led_system) : Prop :=
  pattern_state s = LED_PATTERN_STATE_ACTIVE
  /\ current_step s = 0
  /\ led_state s = on
  /\ current_flash s = (if on then 0 else 1).

(** A convenience function that is [led_status_set] of [status] with the
    result dropped, and that returns on [led_patterns] from every state. *)
Definition sets_status
    (f : list led_pattern_config_t -> nat -> led_system -> outcome led_system)
    (status : led_status_t) : Prop :=
  forall s, exists s',
    f led_patterns enough_fuel s = Done s'
    /\ led_status_set led_patterns enough_fuel status s = Done (SL_STATUS_OK, s')
    /\ led_status_get_current s' = status.

(** A step with its [repeat_count] reduced to what the sequencer can
    tell: for the first step of a pattern whether it is 0, for the other
    steps nothing. *)
Definition forget_repeat (is_first : bool) (step : led_pattern_step_t)
  : led_pattern_step_t :=
  mk_step (on_time_ms step) (off_time_ms step)
          (if is_first then (if repeat_count step =? 0 then 0 else 1) else 0)
          (flash_count step).

Definition forget_repeats_of (l : list led_pattern_step_t) : list led_pattern_step_t :=
  match l with
  | [] => []
  | first :: rest => forget_repeat true first :: map (forget_repeat false) rest
  end.

Definition forget_repeats (config : led_pattern_config_t) : led_pattern_config_t :=
  mk_config (forget_repeats_of <$> steps config) (step_count config)
            (auto_stop config) (auto_stop_delay_ms config).

(** A step that the step-advance logic never leaves: its flash count is
    0, or both its times are 0 and its flashes are not yet counted. *)
Definition endless_step (step : led_pattern_step_t) (s : led_system) : Prop :=
  flash_count step = 0
  \/ (on_time_ms step = 0 /\ off_time_ms step = 0
      /\ current_flash s < flash_count step).

End LedStatusIndicator.

(* ===================================================================== *)
(** * Part III: properties of the battery monitor                        *)
(* ===================================================================== *)

Module BatteryMonitorProofs.
Import BatteryMonitor.

Create HintDb battery discriminated.

(** ** The comparison with the charging threshold on sample currents *)

Example trickle_current_is_not_charging :
  float_gt (float_of_Z 20) (float_of_Z CHARGING_CURRENT_THRESHOLD_MA) = false.
Proof. reflexivity. Qed.

Example threshold_current_is_not_charging :
  float_gt (float_of_Z 50) (float_of_Z CHARGING_CURRENT_THRESHOLD_MA) = false.
Proof. reflexivity. Qed.

Example current_above_threshold_is_charging :
  float_gt (float_of_Z 51) (float_of_Z CHARGING_CURRENT_THRESHOLD_MA) = true
  /\ float_gt (float_of_Z 500) (float_of_Z CHARGING_CURRENT_THRESHOLD_MA) = true
  /\ float_gt (float_lit 501 10) (float_of_Z CHARGING_CURRENT_THRESHOLD_MA) = true.
Proof. repeat split; reflexivity. Qed.

Example nan_current_is_not_charging :
  float_gt S754_nan (float_of_Z CHARGING_CURRENT_THRESHOLD_MA) = false.
Proof. reflexivity. Qed.

(** ** [battery_update_state] *)

Lemma update_state_status (m : monitor) :
  let s := g_battery_status m in
  let s' := g_battery_status (battery_update_state m) in
  battery_percent s' = battery_percent s
  /\ battery_voltage s' = battery_voltage s
  /\ charging_current_ma s' = charging_current_ma s
  /\ is_low_battery_warning_active s' = is_low_battery_warning_active s
  /\ is_charging s' = float_gt (charging_current_ma s) (float_of_Z 50).
Proof. repeat split. Qed.

Lemma update_state_frame (m : monitor) :
  let m' := battery_update_state m in
  g_state_callback m' = g_state_callback m
  /\ g_monitor_timer m' = g_monitor_timer m
  /\ g_monitor_active m' = g_monitor_active m
  /\ timer_running m' = timer_running m.
Proof. repeat split. Qed.

Lemma update_state_known (m : monitor) :
  state (g_battery_status (battery_update_state m)) <> BATTERY_STATE_UNKNOWN.
Proof.
  unfold battery_update_state; cbn.
  destruct (float_gt _ _);
    repeat (match goal with |- context [if ?b then _ else _] => destruct b end);
    discriminate.
Qed.

Lemma update_state_idempotent (m : monitor) :
  battery_update_state (battery_update_state m) = battery_update_state m.
Proof.
  unfold battery_update_state; cbn.
  destruct (float_gt _ _);
    repeat (match goal with |- context [if ?b then _ else _] => destruct b end);
    reflexivity.
Qed.

Lemma handle_state_change_state (old new : battery_state_t) (m : monitor) :
  state (g_battery_status (fst (battery_handle_state_change old new m)))
  = state (g_battery_status m).
Proof.
  destruct m as [[pp vv cc st ch w] cb tm act run0].
  destruct new, w, cb; reflexivity.
Qed.

Lemma handle_state_change_status (old new : battery_state_t) (m : monitor) :
  let s := g_battery_status m in
  let s' := g_battery_status (fst (battery_handle_state_change old new m)) in
  battery_percent s' = battery_percent s
  /\ battery_voltage s' = battery_voltage s
  /\ charging_current_ma s' = charging_current_ma s
  /\ state s' = state s
  /\ is_charging s' = is_charging s.
Proof.
  destruct m as [[pp vv cc st ch w] cb tm act run0].
  destruct new, w, cb; repeat split.
Qed.

(** After [update_values] the stored state is the one [battery_update_state]
    derives from the new readings. *)
Lemma update_values_status (p : Z) (v c : float) (m : monitor) :
  let s' := g_battery_status (fst (battery_monitor_update_values p v c m)) in
  let u := g_battery_status
             (battery_update_state
                (set_status (set_readings p v c (g_battery_status m)) m)) in
  battery_percent s' = p
  /\ battery_voltage s' = v
  /\ charging_current_ma s' = c
  /\ state s' = state u
  /\ is_charging s' = float_gt c (float_of_Z 50).
Proof.
  unfold battery_monitor_update_values.
  case_decide.
  - pose proof (handle_state_change_status
                  (state (g_battery_status m))
                  (state (g_battery_status (battery_update_state
                     (set_status (set_readings p v c (g_battery_status m)) m))))
                  (battery_update_state
                     (set_status (set_readings p v c (g_battery_status m)) m)))
      as (Hp & Hv & Hc & Hs & Hi).
    cbn zeta in *. rewrite Hp, Hv, Hc, Hs, Hi. repeat split.
  - repeat split.
Qed.

Lemma update_values_known (p : Z) (v c : float) (m : monitor) :
  state (g_battery_status (fst (battery_monitor_update_values p v c m)))
  <> BATTERY_STATE_UNKNOWN.
Proof.
  destruct (update_values_status p v c m) as (_ & _ & _ & Hs & _).
  cbn zeta in Hs. rewrite Hs. apply update_state_known.
Qed.

#[export] Hint Resolve update_state_known update_values_known : battery.

(** ** Monitors that are classified *)

Ltac unfold_setters :=
  unfold set_status, set_state, set_is_charging, set_warning, set_readings in *.

Ltac classify_fields :=
  unfold classified, battery_update_state, battery_handle_state_change,
    battery_monitor_stop, battery_monitor_start, battery_monitor_set_callback;
  unfold_setters; cbn;
  let H := fresh "H" in
  intros H; injection H; intros.

Lemma handle_state_change_classified (old new : battery_state_t) (m : monitor) :
  classified m -> classified (fst (battery_handle_state_change old new m)).
Proof.
  destruct m as [[pp vv cc st ch w] cb tm act run0]. classify_fields.
  destruct new, w, cb; unfold_setters; cbn; congruence.
Qed.

Lemma update_values_classified (p : Z) (v c : float) (m : monitor) :
  classified (fst (battery_monitor_update_values p v c m)).
Proof.
  unfold battery_monitor_update_values.
  case_decide; [apply handle_state_change_classified|];
    apply update_state_idempotent.
Qed.

Lemma init_classified (t : option osTimerId_t) (m0 : monitor) :
  classified (snd (battery_monitor_init t m0)).
Proof. unfold classified. destruct t; reflexivity. Qed.

Lemma stop_classified (m : monitor) :
  classified m -> classified (battery_monitor_stop m).
Proof.
  destruct m as [[pp vv cc st ch w] cb tm act run0]. classify_fields.
  destruct w; unfold_setters; cbn; congruence.
Qed.

Lemma start_classified (r : osStatus_t) (m : monitor) :
  classified m -> classified (snd (battery_monitor_start r m)).
Proof.
  destruct m as [[pp vv cc st ch w] cb tm act run0]. classify_fields.
  destruct tm, r; cbn; congruence.
Qed.

Lemma set_callback_classified (f : option battery_state_callback_t) (m : monitor) :
  classified m -> classified (snd (battery_monitor_set_callback f m)).
Proof.
  destruct m as [[pp vv cc st ch w] cb tm act run0]. classify_fields.
  cbn; congruence.
Qed.

Lemma run_classified (o : operation) (m : monitor) :
  classified m -> classified (fst (run o m)).
Proof.
  intros H. destruct o; cbn [run fst].
  - apply init_classified.
  - apply start_classified, H.
  - apply stop_classified, H.
  - apply set_callback_classified, H.
  - unfold classified, battery_monitor_force_update.
    apply update_state_idempotent.
  - apply update_values_classified.
  - unfold battery_monitor_timer_callback.
    destruct (negb (g_monitor_active m)); [exact H|apply update_values_classified].
  - apply update_values_classified.
  - apply update_values_classified.
  - apply update_values_classified.
Qed.

Lemma initialized_classified (m : monitor) : initialized m -> classified m.
Proof.
  induction 1 as [t m0|o m _ IH].
  - apply init_classified.
  - apply run_classified, IH.
Qed.

(** On a classified monitor an update with the stored readings changes
    nothing and calls nothing, like [force_update]. *)
Lemma classified_update_stored (m : monitor) :
  classified m -> run (OpUpdateStored m) m = (m, []).
Proof.
  unfold classified, OpUpdateStored. intros H. cbn [run].
  unfold battery_monitor_update_values.
  destruct m as [[pp vv cc st ch w] cb tm act run0].
  unfold set_status, set_readings.
  cbn [g_battery_status battery_percent battery_voltage charging_current_ma
       state is_charging is_low_battery_warning_active g_state_callback
       g_monitor_timer g_monitor_active timer_running].
  rewrite H. cbn [g_battery_status state].
  case_decide; [congruence|reflexivity].
Qed.

(** ** The claims about the battery monitor *)

(** C3: every call [battery_monitor_update_values percent voltage current_ma]
    sets [is_charging] to [current_ma > 50]; when charging the state is FULL
    for [percent >= 95] and CHARGING otherwise; when not charging it is
    CRITICAL for [percent <= 10], LOW for [10 < percent <= 20] and NORMAL
    for [percent > 20]. In particular [update(100, 4.2, 20)] leaves
    [is_charging = false] and the state NORMAL. *)
Theorem C3_update_values_classifies (percent : Z) (voltage current_ma : float) (m : monitor) :
  let s := g_battery_status
             (fst (battery_monitor_update_values percent voltage current_ma m)) in
  let s100 := g_battery_status
                (fst (battery_monitor_update_values 100 (float_lit 42 10)
                                                    (float_of_Z 20) m)) in
  is_charging s = float_gt current_ma (float_of_Z 50)
  /\ (is_charging s = true /\ 95 <= percent <-> state s = BATTERY_STATE_FULL)
  /\ (is_charging s = true /\ percent < 95 <-> state s = BATTERY_STATE_CHARGING)
  /\ (is_charging s = false /\ percent <= 10 <-> state s = BATTERY_STATE_CRITICAL)
  /\ (is_charging s = false /\ 10 < percent <= 20 <-> state s = BATTERY_STATE_LOW)
  /\ (is_charging s = false /\ 20 < percent <-> state s = BATTERY_STATE_NORMAL)
  /\ is_charging s100 = false
  /\ state s100 = BATTERY_STATE_NORMAL.
Proof.
  cbn zeta.
  destruct (update_values_status percent voltage current_ma m)
    as (_ & _ & _ & Hs & Hi).
  destruct (update_values_status 100 (float_lit 42 10) (float_of_Z 20) m)
    as (_ & _ & _ & Hs' & Hi').
  cbn zeta in *. rewrite Hs, Hi, Hs', Hi'. clear Hs Hi Hs' Hi'.
  unfold battery_update_state. cbn.
  unfold BATTERY_FULL_THRESHOLD_PERCENT, BATTERY_CRITICAL_THRESHOLD_PERCENT,
    BATTERY_LOW_THRESHOLD_PERCENT.
  destruct (float_gt current_ma _);
    repeat (match goal with
            | |- context [?a >=? ?b] => destruct (Z.geb_spec a b)
            | |- context [?a <=? ?b] => destruct (Z.leb_spec a b)
            end);
    repeat split; intros; try discriminate; try lia;
    try (match goal with H : _ /\ _ |- _ => destruct H end; try discriminate; lia).
Qed.

(** C8: with an observer registered, a call of
    [battery_monitor_update_values] calls it exactly once, with the old
    state, the new state and the status record, when the derived state
    differs from the stored one, and not at all when it is the same; on
    such a transition the low-battery warning flag becomes true on entering
    LOW or CRITICAL and false on entering CHARGING, FULL or NORMAL. In
    particular [update(15, 3.2, 0)] from NORMAL gives LOW, one call with
    old = NORMAL and new = LOW, and the flag true. *)
Theorem C8_update_values_notifies (f : battery_state_callback_t)
    (percent : Z) (voltage current_ma : float) (m : monitor) :
  g_state_callback m = Some f ->
  let old := state (g_battery_status m) in
  let r := battery_monitor_update_values percent voltage current_ma m in
  let s := g_battery_status (fst r) in
  let r15 := battery_monitor_update_values 15 (float_lit 32 10) (S754_zero false) m in
  let s15 := g_battery_status (fst r15) in
  (state s <> old ->
     snd r = [mk_call f old (state s) s]
     /\ (state s = BATTERY_STATE_LOW \/ state s = BATTERY_STATE_CRITICAL ->
         is_low_battery_warning_active s = true)
     /\ (state s = BATTERY_STATE_CHARGING \/ state s = BATTERY_STATE_FULL
         \/ state s = BATTERY_STATE_NORMAL ->
         is_low_battery_warning_active s = false))
  /\ (state s = old ->
      snd r = []
      /\ is_low_battery_warning_active s
         = is_low_battery_warning_active (g_battery_status m))
  /\ (old = BATTERY_STATE_NORMAL ->
      state s15 = BATTERY_STATE_LOW
      /\ snd r15 = [mk_call f BATTERY_STATE_NORMAL BATTERY_STATE_LOW s15]
      /\ is_low_battery_warning_active s15 = true).
Proof.
  intros Hf. cbn zeta.
  destruct m as [[pp vv cc st ch w] cb tm act run0]. cbn in Hf. subst cb.
  unfold battery_monitor_update_values, battery_update_state,
      battery_handle_state_change; unfold_setters; cbn.
  unfold BATTERY_FULL_THRESHOLD_PERCENT, BATTERY_CRITICAL_THRESHOLD_PERCENT,
    BATTERY_LOW_THRESHOLD_PERCENT.
  split; [|split].
  - destruct (float_gt current_ma _);
      repeat (match goal with
              | |- context [?a >=? ?b] => destruct (Z.geb_spec a b)
              | |- context [?a <=? ?b] => destruct (Z.leb_spec a b)
              end);
      case_decide; cbn; intros Hne; try congruence;
      destruct w; cbn; repeat split; intros; intuition congruence.
  - destruct (float_gt current_ma _);
      repeat (match goal with
              | |- context [?a >=? ?b] => destruct (Z.geb_spec a b)
              | |- context [?a <=? ?b] => destruct (Z.leb_spec a b)
              end);
      case_decide; cbn; intros He; try congruence;
      try (split; reflexivity); destruct w; cbn in *; congruence.
  - intros ->. change (float_gt (S754_zero false) (float_of_Z CHARGING_CURRENT_THRESHOLD_MA))
      with false. cbn.
    destruct w; repeat split.
Qed.

Lemma C8_update_values_notifies_witness :
  let m := snd (battery_monitor_set_callback (Some 1%nat)
                  (snd (battery_monitor_init (Some 0%nat) static_monitor))) in
  let r := battery_monitor_update_values 15 (float_lit 32 10) (S754_zero false) m in
  snd r = [mk_call 1%nat BATTERY_STATE_NORMAL BATTERY_STATE_LOW (g_battery_status (fst r))]
  /\ is_low_battery_warning_active (g_battery_status (fst r)) = true.
Proof.
  pose proof (C8_update_values_notifies 1%nat 15 (float_lit 32 10) (S754_zero false)
                (snd (battery_monitor_set_callback (Some 1%nat)
                        (snd (battery_monitor_init (Some 0%nat) static_monitor))))
                eq_refl) as (_ & _ & H).
  destruct (H eq_refl) as (_ & Hcall & Hflag).
  split; [exact Hcall|exact Hflag].
Defined.

(** C10: [battery_monitor_init] leaves the state NORMAL with 100 percent
    and [is_charging] false, and no sequence of public operations on an
    initialized monitor ([update_values], [force_update] and the others)
    makes the state UNKNOWN: it is always one of NORMAL, LOW, CRITICAL,
    CHARGING and FULL. *)
Theorem C10_unknown_unreachable :
  (forall t m0,
      let s := g_battery_status (snd (battery_monitor_init t m0)) in
      state s = BATTERY_STATE_NORMAL
      /\ battery_percent s = 100
      /\ is_charging s = false)
  /\ (forall m,
        initialized m ->
        state (g_battery_status m) <> BATTERY_STATE_UNKNOWN
        /\ state (g_battery_status m)
             ∈ [BATTERY_STATE_NORMAL; BATTERY_STATE_LOW; BATTERY_STATE_CRITICAL;
                BATTERY_STATE_CHARGING; BATTERY_STATE_FULL]).
Proof.
  split.
  - intros t m0. destruct t; repeat split.
  - assert (Hknown : forall m, initialized m ->
                       state (g_battery_status m) <> BATTERY_STATE_UNKNOWN).
    { induction 1 as [t m0|o m Hm IH].
      - destruct t; discriminate.
      - destruct o as [t|r| |f| |p v c| | | |]; cbn [run fst].
        + destruct t; discriminate.
        + destruct m as [s cb [tm|] act run0], r; exact IH.
        + destruct m as [[pp vv cc st ch []] cb [tm|] act run0]; exact IH.
        + exact IH.
        + unfold battery_monitor_force_update. auto with battery.
        + auto with battery.
        + unfold battery_monitor_timer_callback.
          destruct (negb (g_monitor_active m)); auto with battery.
        + unfold battery_monitor_simulate_low_battery. auto with battery.
        + unfold battery_monitor_simulate_charging_start. auto with battery.
        + unfold battery_monitor_simulate_charging_complete. auto with battery. }
    intros m Hm. split; [auto|].
    specialize (Hknown m Hm).
    destruct (state (g_battery_status m)); [congruence|..];
      repeat (first [apply list_elem_of_here | apply list_elem_of_further]).
Qed.

Lemma C10_unknown_unreachable_witness :
  state (g_battery_status
           (fst (run OpForceUpdate
                   (fst (run (OpUpdateValues 5 (float_lit 30 10) (S754_zero false))
                           (snd (battery_monitor_init (Some 0%nat) static_monitor)))))))
  <> BATTERY_STATE_UNKNOWN.
Proof.
  apply C10_unknown_unreachable.
  apply initialized_run, initialized_run, initialized_init.
Defined.

(** The claim C2 as it is stated fails before [battery_monitor_init] has
    run: on the start-up state with an observer registered the recomputed
    state (CRITICAL) differs from the stored one (UNKNOWN), yet
    [battery_monitor_force_update] calls nothing and leaves the warning
    flag, where [battery_monitor_update_values] on the stored readings
    calls the observer and sets the flag. *)
Lemma C2_force_update_never_notifies :
  let m := snd (battery_monitor_set_callback (Some 1%nat) static_monitor) in
  state (g_battery_status (battery_monitor_force_update m)) = BATTERY_STATE_CRITICAL
  /\ state (g_battery_status m) = BATTERY_STATE_UNKNOWN
  /\ snd (run OpForceUpdate m) = []
  /\ length (snd (run (OpUpdateStored m) m)) = 1%nat
  /\ is_low_battery_warning_active (g_battery_status (fst (run OpForceUpdate m))) = false
  /\ is_low_battery_warning_active (g_battery_status (fst (run (OpUpdateStored m) m))) = true
  /\ run OpForceUpdate m <> run (OpUpdateStored m) m.
Proof. cbn zeta. repeat split; discriminate. Qed.

(** C2, amended: on every monitor [battery_monitor_force_update] keeps
    the readings, the warning flag and the observer and calls nothing; it
    stores the [is_charging] and the state that
    [battery_monitor_update_values] with the stored readings stores. The
    two calls have the same effect whenever the recomputed state is the
    stored one, which is always so once [battery_monitor_init] has run:
    both then leave the monitor as it is. When the recomputed state
    differs and an observer is registered, [update_values] calls it once
    with the old and the new state and [force_update] does not. *)
Theorem C2_force_update_amended (m : monitor) :
  let s := g_battery_status m in
  let forced := run OpForceUpdate m in
  let updated := run (OpUpdateStored m) m in
  let s' := g_battery_status (fst forced) in
  (battery_percent s' = battery_percent s
   /\ battery_voltage s' = battery_voltage s
   /\ charging_current_ma s' = charging_current_ma s
   /\ is_low_battery_warning_active s' = is_low_battery_warning_active s
   /\ g_state_callback (fst forced) = g_state_callback m
   /\ snd forced = [])
  /\ (is_charging s' = float_gt (charging_current_ma s) (float_of_Z 50)
      /\ is_charging s' = is_charging (g_battery_status (fst updated))
      /\ state s' = state (g_battery_status (fst updated)))
  /\ (state s' = state s -> updated = forced)
  /\ (state s' <> state s ->
      forall f, g_state_callback m = Some f ->
        snd updated
        = [mk_call f (state s) (state s') (g_battery_status (fst updated))]
        /\ updated <> forced)
  /\ (initialized m -> forced = (m, []) /\ updated = forced).
Proof.
  cbv zeta.
  assert (Hupd : run (OpUpdateStored m) m
                 = if decide (state (g_battery_status (battery_update_state m))
                              <> state (g_battery_status m))
                   then battery_handle_state_change (state (g_battery_status m))
                          (state (g_battery_status (battery_update_state m)))
                          (battery_update_state m)
                   else (battery_update_state m, []))
    by (destruct m as [[pp vv cc st ch w] cb tm act run0]; reflexivity).
  rewrite Hupd. clear Hupd.
  cbn [run fst snd]. unfold battery_monitor_force_update.
  split; [repeat split|]. split.
  - split; [reflexivity|].
    case_decide; [|split; reflexivity].
    destruct (handle_state_change_status (state (g_battery_status m))
                (state (g_battery_status (battery_update_state m)))
                (battery_update_state m)) as (_ & _ & _ & Hs & Hi).
    cbn zeta in Hs, Hi. rewrite Hs, Hi. split; reflexivity.
  - split; [|split].
    + intros Hsame. case_decide; [contradiction|reflexivity].
    + intros Hdiff f Hf. case_decide; [|contradiction].
      destruct m as [[pp vv cc st ch w] cb tm act run0]. cbn in Hf. subst cb.
      split; [reflexivity|]. intros Heq. apply (f_equal snd) in Heq.
      discriminate Heq.
    + intros Hm. pose proof (initialized_classified m Hm) as Hc.
      unfold classified in Hc. rewrite Hc.
      case_decide; [contradiction|]. split; reflexivity.
Qed.

Lemma C2_force_update_amended_witness :
  let m := fst (run OpSimulateLowBattery
                  (snd (battery_monitor_set_callback (Some 1%nat)
                          (snd (battery_monitor_init (Some 0%nat) static_monitor))))) in
  g_state_callback m = Some 1%nat
  /\ state (g_battery_status m) = BATTERY_STATE_LOW
  /\ run OpForceUpdate m = (m, [])
  /\ run (OpUpdateStored m) m = run OpForceUpdate m.
Proof.
  cbv zeta. split; [reflexivity|]. split; [reflexivity|].
  pose proof (C2_force_update_amended
                (fst (run OpSimulateLowBattery
                        (snd (battery_monitor_set_callback (Some 1%nat)
                                (snd (battery_monitor_init (Some 0%nat)
                                        static_monitor)))))))
    as (_ & _ & _ & _ & H).
  apply H.
  apply initialized_run, (initialized_run (OpSetCallback (Some 1%nat))),
    initialized_init.
Defined.

End BatteryMonitorProofs.

(* ===================================================================== *)
(** * Part IV: properties of the LED status indicator                    *)
(* ===================================================================== *)

Module LedStatusIndicatorProofs.
Import LedStatusIndicator.

Lemma bind_done {A B : Type} (a : A) (f : A -> outcome B) :
  (Done a ≫= f) = f a.
Proof. reflexivity. Qed.

Section Stepping.

Variable table : list led_pattern_config_t.

Lemma start_eq (fuel : nat) (s : led_system) (config : led_pattern_config_t) :
  pattern_of table (current_status s) = Done config ->
  led_start_next_step table (S fuel) s =
    if current_step s >=? step_count config then
      first_step ← step_at config 0;
      if repeat_count first_step =? 0 then
        led_process_current_step table fuel
          (set_step_start_time (kernel_tick s)
             (set_current_flash 0 (set_current_step 0 s)))
      else
        Done (set_auto_stop_timer
                (if auto_stop config && (auto_stop_delay_ms config >? 0)
                 then osTimerStart (auto_stop_timer s) (auto_stop_delay_ms config)
                 else auto_stop_timer s)
                (led_set_physical_state false
                   (set_pattern_state LED_PATTERN_STATE_COMPLETE s)))
    else
      led_process_current_step table fuel
        (set_step_start_time (kernel_tick s) (set_current_flash 0 s)).
Proof.
  intros Htab. cbn [led_start_next_step]. rewrite Htab, bind_done.
  destruct (current_step s >=? step_count config); [|reflexivity].
  destruct (step_at config 0) as [first_step| |]; try reflexivity.
  rewrite !bind_done.
  destruct (repeat_count first_step =? 0); [reflexivity|].
  destruct (auto_stop config && (auto_stop_delay_ms config >? 0)); [reflexivity|].
  destruct s; reflexivity.
Qed.

Lemma process_eq (fuel : nat) (s : led_system) (config : led_pattern_config_t)
    (step : led_pattern_step_t) :
  pattern_of table (current_status s) = Done config ->
  step_at config (current_step s) = Done step ->
  led_process_current_step table (S fuel) s =
    if (current_flash s >=? flash_count step) && (flash_count step >? 0) then
      led_start_next_step table fuel (set_current_step (incr_u8 (current_step s)) s)
    else if (on_time_ms step =? 0) && (off_time_ms step =? 0) then
      Done (set_timer_handle (osTimerStart (timer_handle s) 1000)
              (led_set_physical_state false s))
    else if negb (led_state s) then
      if on_time_ms step >? 0 then
        Done (set_timer_handle (osTimerStart (timer_handle s) (on_time_ms step))
                (led_set_physical_state true s))
      else led_process_current_step table fuel (led_set_physical_state true s)
    else
      if off_time_ms step >? 0 then
        Done (set_timer_handle (osTimerStart (timer_handle s) (off_time_ms step))
                (led_set_physical_state false
                   (set_current_flash (incr_u8 (current_flash s)) s)))
      else led_process_current_step table fuel
             (led_set_physical_state false
                (set_current_flash (incr_u8 (current_flash s)) s)).
Proof.
  intros Htab Hstep. cbn [led_process_current_step].
  rewrite Htab, bind_done, Hstep, bind_done.
  destruct ((current_flash s >=? flash_count step) && (flash_count step >? 0));
    [reflexivity|].
  destruct ((on_time_ms step =? 0) && (off_time_ms step =? 0)); [reflexivity|].
  destruct (negb (led_state s)).
  - destruct (on_time_ms step >? 0); reflexivity.
  - destruct (off_time_ms step >? 0); reflexivity.
Qed.


(** More fuel never changes a result that was reached: [OutOfFuel] only
    bounds the model's recursion. *)
Lemma more_fuel (fuel : nat) :
  (forall s r, led_start_next_step table fuel s = r -> r <> OutOfFuel ->
               led_start_next_step table (S fuel) s = r)
  /\ (forall s r, led_process_current_step table fuel s = r -> r <> OutOfFuel ->
                  led_process_current_step table (S fuel) s = r).
Proof.
  induction fuel as [|fuel [IHs IHp]].
  - split; intros s r <- H; contradiction H; reflexivity.
  - split; intros s r <- Hr.
    + revert Hr. cbn [led_start_next_step].
      destruct (pattern_of table (current_status s)) as [config| |];
        cbn [mbind outcome_bind]; try (intros; reflexivity).
      destruct (current_step s >=? step_count config).
      * destruct (step_at config 0) as [first_step| |];
          cbn [mbind outcome_bind]; try (intros; reflexivity).
        destruct (repeat_count first_step =? 0); [|intros; reflexivity].
        intros Hr. apply IHp; [reflexivity|exact Hr].
      * intros Hr. apply IHp; [reflexivity|exact Hr].
    + revert Hr. cbn [led_process_current_step].
      destruct (pattern_of table (current_status s)) as [config| |];
        cbn [mbind outcome_bind]; try (intros; reflexivity).
      destruct (step_at config (current_step s)) as [step| |];
        cbn [mbind outcome_bind]; try (intros; reflexivity).
      destruct ((current_flash s >=? flash_count step) && (flash_count step >? 0)).
      * intros Hr. apply IHs; [reflexivity|exact Hr].
      * destruct ((on_time_ms step =? 0) && (off_time_ms step =? 0));
          [intros; reflexivity|].
        destruct (negb (led_state s)).
        -- destruct (on_time_ms step >? 0); [intros; reflexivity|].
           intros Hr. apply IHp; [reflexivity|exact Hr].
        -- destruct (off_time_ms step >? 0); [intros; reflexivity|].
           intros Hr. apply IHp; [reflexivity|exact Hr].
Qed.

Lemma process_more_fuel (extra fuel : nat) (s : led_system) (r : outcome led_system) :
  led_process_current_step table fuel s = r -> r <> OutOfFuel ->
  led_process_current_step table (extra + fuel) s = r.
Proof.
  intros Hrun Hr. induction extra as [|extra IH]; [exact Hrun|].
  apply (more_fuel (extra + fuel)); assumption.
Qed.

Lemma start_more_fuel (extra fuel : nat) (s : led_system) (r : outcome led_system) :
  led_start_next_step table fuel s = r -> r <> OutOfFuel ->
  led_start_next_step table (extra + fuel) s = r.
Proof.
  intros Hrun Hr. induction extra as [|extra IH]; [exact Hrun|].
  apply (more_fuel (extra + fuel)); assumption.
Qed.

Variable config : led_pattern_config_t.
Variables (first : led_pattern_step_t) (rest : list led_pattern_step_t).
Hypothesis Hwf : well_formed config.
Hypothesis Hfirst : steps config = Some (first :: rest).

Lemma step_at_first : step_at config 0 = Done first.
Proof. unfold step_at. rewrite Hfirst. reflexivity. Qed.

Lemma step_at_valid (i : Z) :
  0 <= i < step_count config ->
  exists step, step_at config i = Done step /\ step_in_range step.
Proof.
  intros Hi. destruct Hwf as (l & Hl & Hlen & _ & Hall).
  unfold step_at. rewrite Hl.
  destruct (Z.ltb_spec i 0) as [|_]; [lia|].
  destruct (lookup_lt_is_Some_2 l (Z.to_nat i)) as [step Hstep]; [lia|].
  exists step. rewrite Hstep. split; [reflexivity|].
  eapply Forall_lookup_1; eauto.
Qed.

Lemma step_count_range : 0 < step_count config < 256.
Proof. destruct Hwf as (l & _ & _ & H & _). exact H. Qed.

Lemma continues_frame (s1 s2 s' : led_system) :
  same_frame s1 s2 -> continues config s1 s' -> continues config s2 s'.
Proof.
  intros (H1 & H2 & H3 & H4) (C1 & C2 & C3 & C4 & C5 & C6).
  unfold continues. rewrite <- H1, <- H2, <- H3, <- H4. auto 10.
Qed.

Lemma settled_frame (s1 s2 s' : led_system) :
  same_frame s1 s2 -> settled config first s1 s' -> settled config first s2 s'.
Proof.
  intros Hf [Hc|[Hr Hc]]; [left; eapply continues_frame; eauto|right].
  destruct Hf as (H1 & H2 & H3 & H4).
  split; [exact Hr|]. unfold completes in *.
  rewrite <- H1, <- H3, <- H4. exact Hc.
Qed.

Ltac frame := repeat split; reflexivity.

Ltac by_cases :=
  repeat match goal with
         | |- context [?a =? ?b] => destruct (Z.eqb_spec a b)
         | |- context [?a >? ?b] => destruct (Z.gtb_spec a b)
         | |- context [?a >=? ?b] => destruct (Z.geb_spec a b)
         end; cbn [andb negb].

Lemma arm_continues (s s0 : led_system) (b : bool) (d : Z) :
  0 < d ->
  valid_step config s ->
  current_status s0 = current_status s ->
  pattern_state s0 = pattern_state s ->
  current_step s0 = current_step s ->
  auto_stop_timer s0 = auto_stop_timer s ->
  continues config s
    (set_timer_handle (osTimerStart (timer_handle s) d) (led_set_physical_state b s0)).
Proof.
  intros Hd Hvalid H1 H2 H3 H4. unfold continues, valid_step. cbn.
  rewrite H1, H2, H3, H4. repeat split; try apply Hvalid.
  exists d. split; [exact Hd|reflexivity].
Qed.

Ltac arms :=
  eexists; split; [reflexivity|]; apply arm_continues;
  first [assumption | reflexivity | lia].

(** LED on, the step stays, and its off time is positive: one call turns
    the LED off and arms the timer. *)
Lemma process_led_on (s : led_system) (step : led_pattern_step_t) (fuel : nat) :
  pattern_of table (current_status s) = Done config ->
  step_at config (current_step s) = Done step ->
  valid_step config s ->
  led_state s = true ->
  stays_in_step step s ->
  0 < off_time_ms step ->
  exists s', led_process_current_step table (S fuel) s = Done s'
             /\ continues config s s'.
Proof.
  intros Htab Hstep Hvalid Hled Hstay Hoff.
  rewrite (process_eq fuel s config step Htab Hstep).
  unfold stays_in_step in Hstay. rewrite Hstay, Hled. cbn [negb].
  by_cases; try lia; arms.
Qed.

(** LED off and the step stays: at most two calls arm the timer. *)
Lemma process_led_off (s : led_system) (fuel : nat) :
  pattern_of table (current_status s) = Done config ->
  valid_step config s ->
  led_state s = false ->
  (forall step, step_at config (current_step s) = Done step -> stays_in_step step s) ->
  exists s', led_process_current_step table (S (S fuel)) s = Done s'
             /\ continues config s s'.
Proof.
  intros Htab Hvalid Hled Hstay.
  destruct (step_at_valid (current_step s) Hvalid) as (step & Hstep & Hr).
  specialize (Hstay step Hstep).
  destruct Hr as (Hon & Hoff & _ & _).
  rewrite (process_eq (S fuel) s config step Htab Hstep).
  pose proof Hstay as Hstay'. unfold stays_in_step in Hstay'.
  rewrite Hstay', Hled. cbn [negb].
  by_cases; try lia; try arms.
  destruct (process_led_on (led_set_physical_state true s) step fuel)
    as (s' & Hrun & Hc); try assumption; try reflexivity; try lia.
  exists s'. split; [exact Hrun|].
  eapply continues_frame; [|exact Hc]. frame.
Qed.

Lemma fresh_flash_stays (s : led_system) (step : led_pattern_step_t) :
  step_in_range step -> current_flash s = 0 -> stays_in_step step s.
Proof.
  intros (_ & _ & _ & Hfc) Hz. unfold stays_in_step. rewrite Hz.
  destruct (Z.geb_spec 0 (flash_count step)), (Z.gtb_spec (flash_count step) 0);
    cbn; try reflexivity; lia.
Qed.

Lemma fresh_flash_stays_at (s : led_system) :
  valid_step config s -> current_flash s = 0 ->
  forall step, step_at config (current_step s) = Done step -> stays_in_step step s.
Proof.
  intros Hvalid Hz step Hstep.
  destruct (step_at_valid (current_step s) Hvalid) as (step' & Hstep' & Hr).
  assert (step' = step) by congruence. subst step'.
  apply fresh_flash_stays; assumption.
Qed.

Lemma incr_u8_step (s : led_system) :
  valid_step config s -> incr_u8 (current_step s) = current_step s + 1.
Proof.
  intros Hvalid. pose proof step_count_range. unfold valid_step in Hvalid.
  unfold incr_u8. apply Z.mod_small. lia.
Qed.

Lemma finish_completes (s : led_system) :
  step_count config <= current_step s <= step_count config ->
  completes config s
    (set_auto_stop_timer
       (if auto_stop config && (auto_stop_delay_ms config >? 0)
        then osTimerStart (auto_stop_timer s) (auto_stop_delay_ms config)
        else auto_stop_timer s)
       (led_set_physical_state false (set_pattern_state LED_PATTERN_STATE_COMPLETE s))).
Proof. intros Hs. unfold completes. cbn. repeat split. lia. Qed.

(** Entering a step with the LED off: at most three calls. *)
Lemma start_led_off (s : led_system) (fuel : nat) :
  pattern_of table (current_status s) = Done config ->
  0 <= current_step s <= step_count config ->
  led_state s = false ->
  exists s', led_start_next_step table (S (S (S fuel))) s = Done s' /\ settled config first s s'.
Proof.
  intros Htab Hstep Hled. pose proof step_count_range as Hcount.
  rewrite (start_eq _ s config Htab).
  destruct (Z.geb_spec (current_step s) (step_count config)) as [Hge|Hlt].
  - rewrite step_at_first, bind_done.
    destruct (Z.eqb_spec (repeat_count first) 0) as [Hrep|Hrep].
    + destruct (process_led_off
                  (set_step_start_time (kernel_tick s)
                     (set_current_flash 0 (set_current_step 0 s))) fuel)
        as (s' & Hrun & Hc); try assumption.
      * unfold valid_step; cbn; lia.
      * apply fresh_flash_stays_at; [unfold valid_step; cbn; lia|reflexivity].
      * exists s'. split; [exact Hrun|]. left.
        eapply continues_frame; [|exact Hc]. frame.
    + eexists; split; [reflexivity|]. right. split; [exact Hrep|].
      apply finish_completes. lia.
  - destruct (process_led_off
                (set_step_start_time (kernel_tick s) (set_current_flash 0 s)) fuel)
      as (s' & Hrun & Hc); try assumption.
    + unfold valid_step; cbn; lia.
    + apply fresh_flash_stays_at; [unfold valid_step; cbn; lia|reflexivity].
    + exists s'. split; [exact Hrun|]. left.
      eapply continues_frame; [|exact Hc]. frame.
Qed.

(** LED on and the step stays: at most five calls. *)
Lemma process_led_on_any (s : led_system) (fuel : nat) :
  pattern_of table (current_status s) = Done config ->
  valid_step config s ->
  led_state s = true ->
  (forall step, step_at config (current_step s) = Done step -> stays_in_step step s) ->
  exists s', led_process_current_step table (S (S (S (S (S fuel))))) s = Done s'
             /\ settled config first s s'.
Proof.
  intros Htab Hvalid Hled Hstay.
  destruct (step_at_valid (current_step s) Hvalid) as (step & Hstep & Hr).
  specialize (Hstay step Hstep).
  destruct Hr as (Hon & Hoff & _ & _).
  rewrite (process_eq _ s config step Htab Hstep).
  pose proof Hstay as Hstay'. unfold stays_in_step in Hstay'.
  rewrite Hstay', Hled. cbn [negb].
  destruct (Z.eqb_spec (on_time_ms step) 0), (Z.eqb_spec (off_time_ms step) 0),
    (Z.gtb_spec (off_time_ms step) 0); cbn [andb]; try lia;
    try (eexists; split; [reflexivity|]; left; apply arm_continues;
         first [assumption | reflexivity | lia]).
  set (s2 := led_set_physical_state false
               (set_current_flash (incr_u8 (current_flash s)) s)).
  assert (Htab2 : pattern_of table (current_status s2) = Done config) by exact Htab.
  assert (Hstep2 : step_at config (current_step s2) = Done step) by exact Hstep.
  destruct ((current_flash s2 >=? flash_count step) && (flash_count step >? 0))
    eqn:Hadv.
  - rewrite (process_eq _ s2 config step Htab2 Hstep2). rewrite Hadv.
    destruct (start_led_off (set_current_step (incr_u8 (current_step s2)) s2) fuel)
      as (s' & Hrun & Hc); try assumption; try reflexivity.
    + cbn. pose proof (incr_u8_step s Hvalid) as Hi. rewrite Hi.
      unfold valid_step in Hvalid. lia.
    + exists s'. split; [exact Hrun|].
      eapply settled_frame; [|exact Hc]. frame.
  - destruct (process_led_off s2 (S (S fuel))) as (s' & Hrun & Hc);
      try assumption; try reflexivity.
    + intros step' Hstep'. assert (step' = step) by congruence. subst step'.
      exact Hadv.
    + exists s'. split; [exact Hrun|]. left.
      eapply continues_frame; [|exact Hc]. frame.
Qed.

(** The step stays, LED on or off: at most five calls. *)
Lemma process_stays (s : led_system) (fuel : nat) :
  pattern_of table (current_status s) = Done config ->
  valid_step config s ->
  (forall step, step_at config (current_step s) = Done step -> stays_in_step step s) ->
  exists s', led_process_current_step table (S (S (S (S (S fuel))))) s = Done s'
             /\ settled config first s s'.
Proof.
  intros Htab Hvalid Hstay. destruct (led_state s) eqn:Hled.
  - apply process_led_on_any; assumption.
  - destruct (process_led_off s (S (S (S fuel))) Htab Hvalid Hled Hstay)
      as (s' & Hrun & Hc).
    exists s'. split; [exact Hrun|left; exact Hc].
Qed.

(** Entering a step: at most six calls. *)
Lemma start_settles (s : led_system) (fuel : nat) :
  pattern_of table (current_status s) = Done config ->
  0 <= current_step s <= step_count config ->
  exists s', led_start_next_step table (S (S (S (S (S (S fuel)))))) s = Done s'
             /\ settled config first s s'.
Proof.
  intros Htab Hstep. pose proof step_count_range as Hcount.
  rewrite (start_eq _ s config Htab).
  destruct (Z.geb_spec (current_step s) (step_count config)) as [Hge|Hlt].
  - rewrite step_at_first, bind_done.
    destruct (Z.eqb_spec (repeat_count first) 0) as [Hrep|Hrep].
    + destruct (process_stays
                  (set_step_start_time (kernel_tick s)
                     (set_current_flash 0 (set_current_step 0 s))) fuel)
        as (s' & Hrun & Hc); try assumption.
      * unfold valid_step; cbn; lia.
      * apply fresh_flash_stays_at; [unfold valid_step; cbn; lia|reflexivity].
      * exists s'. split; [exact Hrun|].
        eapply settled_frame; [|exact Hc]. frame.
    + eexists; split; [reflexivity|]. right. split; [exact Hrep|].
      apply finish_completes. lia.
  - destruct (process_stays
                (set_step_start_time (kernel_tick s) (set_current_flash 0 s)) fuel)
      as (s' & Hrun & Hc); try assumption.
    + unfold valid_step; cbn; lia.
    + apply fresh_flash_stays_at; [unfold valid_step; cbn; lia|reflexivity].
    + exists s'. split; [exact Hrun|].
      eapply settled_frame; [|exact Hc]. frame.
Qed.

(** The step-advance logic at a valid step: at most seven calls, never a
    fault. *)
Lemma process_settles (s : led_system) (fuel : nat) :
  pattern_of table (current_status s) = Done config ->
  valid_step config s ->
  exists s', led_process_current_step table (S (S (S (S (S (S (S fuel))))))) s = Done s'
             /\ settled config first s s'.
Proof.
  intros Htab Hvalid.
  destruct (step_at_valid (current_step s) Hvalid) as (step & Hstep & Hr).
  destruct ((current_flash s >=? flash_count step) && (flash_count step >? 0))
    eqn:Hadv.
  - rewrite (process_eq _ s config step Htab Hstep). rewrite Hadv.
    destruct (start_settles (set_current_step (incr_u8 (current_step s)) s) fuel)
      as (s' & Hrun & Hc); try assumption.
    + cbn. rewrite (incr_u8_step s Hvalid). unfold valid_step in Hvalid. lia.
    + exists s'. split; [exact Hrun|].
      eapply settled_frame; [|exact Hc]. frame.
  - apply (process_stays s (S (S fuel)) Htab Hvalid).
    intros step' Hstep'. assert (step' = step) by congruence. subst step'.
    exact Hadv.
Qed.

End Stepping.

(** ** The pattern table of the firmware *)

Ltac well_formed_entry :=
  eexists; split; [reflexivity|]; split; [reflexivity|]; split; [cbn; lia|];
  repeat constructor; cbn; lia.

Lemma populated_well_formed (status : led_status_t) :
  status ∈ populated ->
  exists config, pattern_of led_patterns status = Done config /\ well_formed config.
Proof.
  unfold populated. intros H.
  repeat (apply elem_of_cons in H as [->|H]);
    try (eexists; split; [reflexivity|well_formed_entry]).
  apply elem_of_nil in H. destruct H.
Qed.

Lemma unpopulated_zero (status : led_status_t) :
  (status < LED_STATUS_MAX)%N ->
  status ∉ populated ->
  pattern_of led_patterns status = Done zero_config.
Proof.
  unfold LED_STATUS_MAX, populated. intros Hlt Hnot.
  destruct status as [|p]; [exfalso; apply Hnot; repeat constructor|].
  repeat (match goal with p : positive |- _ => destruct p; try (exfalso; lia) end);
    first [reflexivity | exfalso; apply Hnot; repeat constructor].
Qed.

(** ** Sample runs from start-up *)

Example init_creates_both_timers :
  led_status_indicator_init true true (static_system 0)
  = (SL_STATUS_OK,
     mk_system LED_STATUS_OFF LED_PATTERN_STATE_IDLE 0 0 0 0 0 false
               TimerStopped TimerStopped false 0).
Proof. reflexivity. Qed.

Example init_without_timer_fails :
  fst (led_status_indicator_init false true (static_system 0)) = SL_STATUS_FAIL
  /\ fst (led_status_indicator_init true false (static_system 0)) = SL_STATUS_FAIL.
Proof. split; reflexivity. Qed.

Example set_pairing_turns_led_on :
  led_status_set led_patterns enough_fuel LED_STATUS_BLE_PAIRING
    (snd (led_status_indicator_init true true (static_system 7)))
  = Done (SL_STATUS_OK,
          mk_system LED_STATUS_BLE_PAIRING LED_PATTERN_STATE_ACTIVE 0 0 0 7 7 true
                    (TimerRunning 200) TimerStopped true 7).
Proof. reflexivity. Qed.

(** The pairing-failure pattern ends after its three steps, although its
    last step has [repeat_count == 0]: only the first step is asked. *)
Example pair_fail_completes_after_nine_expiries :
  (s ← led_status_set led_patterns enough_fuel LED_STATUS_BLE_PAIR_FAIL
         (snd (led_status_indicator_init true true (static_system 0)));
   led_timer_expires_n led_patterns enough_fuel 9 (snd s))
  = Done (mk_system LED_STATUS_BLE_PAIR_FAIL LED_PATTERN_STATE_COMPLETE 3 2 0 0 0 false
                    TimerStopped TimerStopped false 0).
Proof. reflexivity. Qed.

Example out_of_range_status_is_rejected :
  led_status_set led_patterns enough_fuel LED_STATUS_MAX (static_system 0)
  = Done (SL_STATUS_INVALID_PARAMETER, static_system 0).
Proof. reflexivity. Qed.

(** On an entry that was never initialized the first thing
    [led_start_next_step] does is read [steps[0]] through a null pointer. *)
Lemma start_zero_config_faults (table : list led_pattern_config_t) (fuel : nat)
    (s : led_system) :
  pattern_of table (current_status s) = Done zero_config ->
  0 <= current_step s ->
  led_start_next_step table (S fuel) s = Fault.
Proof.
  intros Htab Hstep. rewrite (start_eq table fuel s zero_config Htab).
  destruct (Z.geb_spec (current_step s) (step_count zero_config)) as [|Hlt];
    [reflexivity|cbn in Hlt; lia].
Qed.

(** ** [led_status_set] *)

Lemma set_invalid (table : list led_pattern_config_t) (fuel : nat)
    (status : led_status_t) (s : led_system) :
  (LED_STATUS_MAX <= status)%N ->
  led_status_set table fuel status s = Done (SL_STATUS_INVALID_PARAMETER, s).
Proof.
  intros H. unfold led_status_set.
  destruct (N.leb_spec LED_STATUS_MAX status); [reflexivity|lia].
Qed.

Lemma set_valid_not_invalid (table : list led_pattern_config_t) (fuel : nat)
    (status : led_status_t) (s s' : led_system) :
  led_status_set table fuel status s = Done (SL_STATUS_INVALID_PARAMETER, s') ->
  (LED_STATUS_MAX <= status)%N.
Proof.
  unfold led_status_set.
  destruct (N.leb_spec LED_STATUS_MAX status) as [|Hlt]; [auto|].
  destruct ((status =? LED_STATUS_OFF)%N || (status =? LED_STATUS_OTA_SUCCESS)%N);
    [discriminate|].
  destruct (led_start_next_step _ _ _); discriminate.
Qed.

(** On a well-formed entry [led_status_set] returns [SL_STATUS_OK]. *)
Lemma set_well_formed (table : list led_pattern_config_t) (fuel : nat)
    (status : led_status_t) (s : led_system)
    (config : led_pattern_config_t) :
  (status < LED_STATUS_MAX)%N ->
  pattern_of table status = Done config ->
  well_formed config ->
  exists s', led_status_set table (S (S (S (S (S (S fuel)))))) status s
             = Done (SL_STATUS_OK, s')
             /\ current_status s' = status.
Proof.
  intros Hlt Htab Hwf. unfold led_status_set.
  destruct (N.leb_spec LED_STATUS_MAX status); [lia|].
  destruct ((status =? LED_STATUS_OFF)%N || (status =? LED_STATUS_OTA_SUCCESS)%N).
  { eexists; split; reflexivity. }
  pose proof Hwf as (l & Hl & Hlen & Hcount & _).
  destruct l as [|first rest]; [cbn in Hlen; lia|].
  match goal with
  | |- context [led_start_next_step _ _ ?s0] =>
      destruct (start_settles table config first rest Hwf Hl s0 fuel)
        as (s' & Hrun & Hs); [exact Htab|cbn; lia|]
  end.
  rewrite Hrun. exists s'. split; [reflexivity|].
  destruct Hs as [Hc|[_ Hc]]; [apply Hc|apply Hc].
Qed.

(** ** No fault on well-formed entries *)

(** One expiry of the step timer on a well-formed entry returns; the
    status is kept, and an ACTIVE pattern is again at a valid step. *)
Lemma expiry_safe (table : list led_pattern_config_t)
    (config : led_pattern_config_t) (s : led_system) :
  pattern_of table (current_status s) = Done config ->
  well_formed config ->
  (pattern_state s = LED_PATTERN_STATE_ACTIVE -> valid_step config s) ->
  exists s', led_timer_expires table enough_fuel s = Done s'
             /\ current_status s' = current_status s
             /\ (pattern_state s' = LED_PATTERN_STATE_ACTIVE -> valid_step config s').
Proof.
  intros Htab Hwf Hinv.
  unfold led_timer_expires, led_timer_callback. cbn [pattern_state set_timer_handle].
  case_bool_decide as Hact.
  - pose proof Hwf as (l & Hl & Hlen & Hcount & _).
    destruct l as [|first rest]; [cbn in Hlen; lia|].
    destruct (process_settles table config first rest Hwf Hl
                (set_timer_handle (expired (timer_handle s)) s) 1%nat)
      as (s' & Hrun & Hs); [exact Htab|exact (Hinv Hact)|].
    exists s'. split; [exact Hrun|].
    destruct Hs as [(Hst & _ & Hv & _)|(_ & Hst & Hps & _)].
    + split; [exact Hst|auto].
    + split; [exact Hst|]. rewrite Hps. discriminate.
  - eexists. split; [reflexivity|]. split; [reflexivity|].
    cbn. intros; contradiction.
Qed.

Lemma expiries_safe (table : list led_pattern_config_t)
    (config : led_pattern_config_t) (n : nat) (s : led_system) :
  pattern_of table (current_status s) = Done config ->
  well_formed config ->
  (pattern_state s = LED_PATTERN_STATE_ACTIVE -> valid_step config s) ->
  exists s', led_timer_expires_n table enough_fuel n s = Done s'
             /\ current_status s' = current_status s.
Proof.
  intros Htab Hwf. revert s Htab.
  induction n as [|n IH]; intros s Htab Hinv.
  - exists s. auto.
  - destruct (expiry_safe table config s Htab Hwf Hinv) as (s1 & Hrun & Hst & Hinv1).
    destruct (IH s1) as (s' & Hrun' & Hst'); [rewrite Hst; exact Htab|exact Hinv1|].
    exists s'. cbn [led_timer_expires_n]. rewrite Hrun, bind_done.
    split; [exact Hrun'|congruence].
Qed.

(** Setting a status that [led_patterns] has an entry for returns
    [SL_STATUS_OK], and no later expiry of the step timer faults. *)
Lemma populated_set_safe (status : led_status_t) (n : nat) (s : led_system) :
  status ∈ populated ->
  exists s1 s',
    led_status_set led_patterns enough_fuel status s = Done (SL_STATUS_OK, s1)
    /\ current_status s1 = status
    /\ led_timer_expires_n led_patterns enough_fuel n s1 = Done s'.
Proof.
  intros Hpop.
  destruct (populated_well_formed status Hpop) as (config & Htab & Hwf).
  assert (Hlt : (status < LED_STATUS_MAX)%N).
  { unfold populated in Hpop.
    repeat (apply elem_of_cons in Hpop as [->|Hpop]); try reflexivity.
    apply elem_of_nil in Hpop. destruct Hpop. }
  assert (Hset : exists s1,
             led_status_set led_patterns enough_fuel status s = Done (SL_STATUS_OK, s1)
             /\ current_status s1 = status
             /\ (pattern_state s1 = LED_PATTERN_STATE_ACTIVE -> valid_step config s1)).
  { unfold led_status_set, enough_fuel.
    destruct (N.leb_spec LED_STATUS_MAX status); [lia|].
    destruct ((status =? LED_STATUS_OFF)%N || (status =? LED_STATUS_OTA_SUCCESS)%N).
    { eexists; split; [reflexivity|]. split; [reflexivity|]. cbn. discriminate. }
    pose proof Hwf as (l & Hl & Hlen & Hcount & _).
    destruct l as [|first rest]; [cbn in Hlen; lia|].
    match goal with
    | |- context [led_start_next_step _ _ ?s0] =>
        destruct (start_settles led_patterns config first rest Hwf Hl s0 2%nat)
          as (s1 & Hrun & Hs); [exact Htab|cbn; lia|]
    end.
    rewrite Hrun. exists s1. split; [reflexivity|].
    destruct Hs as [(Hst & _ & Hv & _)|(_ & Hst & Hps & _)].
    - split; [exact Hst|auto].
    - split; [exact Hst|]. rewrite Hps. discriminate. }
  destruct Hset as (s1 & Hrun & Hst & Hinv).
  destruct (expiries_safe led_patterns config n s1) as (s' & Hrun' & _);
    [rewrite Hst; exact Htab|exact Hwf|exact Hinv|].
  exists s1, s'. auto.
Qed.

(** ** The claims about the LED status indicator *)

(** C1 fails on [led_patterns]: LED_STATUS_LOW_BATTERY is accepted by
    [led_status_set] and is not one of its two special cases, so it
    reaches [led_start_next_step]; its table entry was never initialized
    ([steps] is null, [step_count] is 0), and the read of [steps[0]] there
    is a read through a null pointer. *)
Theorem C1_low_battery_entry_is_null :
  (LED_STATUS_LOW_BATTERY < LED_STATUS_MAX)%N
  /\ LED_STATUS_LOW_BATTERY <> LED_STATUS_OFF
  /\ LED_STATUS_LOW_BATTERY <> LED_STATUS_OTA_SUCCESS
  /\ pattern_of led_patterns LED_STATUS_LOW_BATTERY = Done zero_config
  /\ steps zero_config = None
  /\ step_at zero_config 0 = Fault
  /\ (forall fuel s,
        led_start_next_step led_patterns (S fuel)
          (set_current_step 0 (set_current_status LED_STATUS_LOW_BATTERY s))
        = Fault).
Proof.
  split; [reflexivity|]. do 2 (split; [discriminate|]).
  do 3 (split; [reflexivity|]).
  intros fuel s. apply start_zero_config_faults; [reflexivity|cbn; lia].
Qed.

(** C6 fails on [led_patterns]: LED_STATUS_LOW_BATTERY is in range, yet
    [led_status_set] does not return success on it; the call ends in the
    null-pointer read of [led_start_next_step]. *)
Theorem C6_set_low_battery_faults (fuel : nat) (s : led_system) :
  (LED_STATUS_LOW_BATTERY < LED_STATUS_MAX)%N
  /\ led_status_set led_patterns (S fuel) LED_STATUS_LOW_BATTERY s = Fault.
Proof.
  split; [reflexivity|]. unfold led_status_set.
  change (LED_STATUS_MAX <=? LED_STATUS_LOW_BATTERY)%N with false. cbv iota.
  change ((LED_STATUS_LOW_BATTERY =? LED_STATUS_OFF)%N
          || (LED_STATUS_LOW_BATTERY =? LED_STATUS_OTA_SUCCESS)%N) with false.
  cbv iota.
  rewrite start_zero_config_faults; [reflexivity|reflexivity|cbn; lia].
Qed.

(** One expiry of the step timer in an ACTIVE pattern whose first step
    repeats for ever: the callback returns, and the pattern is still
    ACTIVE at a valid step. *)
Lemma expiry_stays_active (table : list led_pattern_config_t)
    (config : led_pattern_config_t) (first : led_pattern_step_t)
    (rest : list led_pattern_step_t) (s : led_system) :
  pattern_of table (current_status s) = Done config ->
  well_formed config ->
  steps config = Some (first :: rest) ->
  repeat_count first = 0 ->
  pattern_state s = LED_PATTERN_STATE_ACTIVE ->
  valid_step config s ->
  exists s', led_timer_expires table enough_fuel s = Done s'
             /\ pattern_state s' = LED_PATTERN_STATE_ACTIVE
             /\ current_status s' = current_status s
             /\ valid_step config s'.
Proof.
  intros Htab Hwf Hfirst Hrep Hact Hvalid.
  unfold led_timer_expires, led_timer_callback.
  cbn [pattern_state set_timer_handle]. rewrite Hact.
  rewrite bool_decide_eq_true_2 by reflexivity.
  destruct (process_settles table config first rest Hwf Hfirst
              (set_timer_handle (expired (timer_handle s)) s) 1%nat)
    as (s' & Hrun & [Hc|[Hne _]]); try assumption; [|contradiction].
  exists s'. split; [exact Hrun|].
  destruct Hc as (Hst & Hps & Hv & _).
  cbn in Hst, Hps. rewrite Hst, Hps. auto.
Qed.

(** C4: in a pattern whose first step has [repeat_count == 0], passing
    the last step resets [current_step] to 0 and goes on stepping, and
    the sequencer stays ACTIVE through any number of expiries of the step
    timer: stepping alone never makes the phase COMPLETE (only
    [led_status_set] and [led_status_stop] write another phase). *)
Theorem C4_infinite_pattern_stays_active (table : list led_pattern_config_t)
    (config : led_pattern_config_t) (first : led_pattern_step_t)
    (rest : list led_pattern_step_t) (s : led_system) :
  pattern_of table (current_status s) = Done config ->
  well_formed config ->
  steps config = Some (first :: rest) ->
  repeat_count first = 0 ->
  pattern_state s = LED_PATTERN_STATE_ACTIVE ->
  valid_step config s ->
  (forall fuel,
      led_start_next_step table (S fuel) (set_current_step (step_count config) s)
      = led_process_current_step table fuel
          (set_step_start_time (kernel_tick s)
             (set_current_flash 0 (set_current_step 0 s))))
  /\ (exists s',
        led_start_next_step table enough_fuel (set_current_step (step_count config) s)
        = Done s'
        /\ pattern_state s' = LED_PATTERN_STATE_ACTIVE
        /\ valid_step config s')
  /\ (forall n, exists s',
        led_timer_expires_n table enough_fuel n s = Done s'
        /\ pattern_state s' = LED_PATTERN_STATE_ACTIVE
        /\ current_status s' = current_status s
        /\ valid_step config s').
Proof.
  intros Htab Hwf Hfirst Hrep Hact Hvalid.
  pose proof (step_count_range config Hwf) as Hcount.
  split; [|split].
  - intros fuel.
    rewrite (start_eq table fuel _ config) by exact Htab.
    cbn [current_step set_current_step].
    destruct (Z.geb_spec (step_count config) (step_count config)); [|lia].
    rewrite (step_at_first config first rest Hfirst), bind_done.
    rewrite Hrep. reflexivity.
  - destruct (start_settles table config first rest Hwf Hfirst
                (set_current_step (step_count config) s) 2%nat)
      as (s' & Hrun & [Hc|[Hne _]]); [exact Htab|cbn; lia| |contradiction].
    exists s'. split; [exact Hrun|].
    destruct Hc as (_ & Hps & Hv & _). cbn in Hps. rewrite Hps. auto.
  - intros n. revert s Htab Hact Hvalid.
    induction n as [|n IH]; intros s Htab Hact Hvalid.
    + exists s. auto.
    + destruct (expiry_stays_active table config first rest s)
        as (s1 & Hrun & Hact1 & Hst1 & Hvalid1); try assumption.
      destruct (IH s1) as (s' & Hrun' & Hact' & Hst' & Hvalid');
        try assumption; [rewrite Hst1; exact Htab|].
      exists s'. cbn [led_timer_expires_n]. rewrite Hrun, bind_done.
      split; [exact Hrun'|]. rewrite Hst', Hst1. auto.
Qed.

Lemma C4_infinite_pattern_stays_active_witness :
  let s := mk_system LED_STATUS_BLE_PAIRING LED_PATTERN_STATE_ACTIVE 0 0 0 0 0 true
                     (TimerRunning 200) TimerStopped true 0 in
  exists s',
    led_timer_expires_n led_patterns enough_fuel 5 s = Done s'
    /\ pattern_state s' = LED_PATTERN_STATE_ACTIVE.
Proof.
  cbv zeta.
  destruct (C4_infinite_pattern_stays_active led_patterns
              (mk_config (Some pattern_ble_pairing) 1 false 0)
              (mk_step 200 800 0 1) []
              (mk_system LED_STATUS_BLE_PAIRING LED_PATTERN_STATE_ACTIVE 0 0 0 0 0 true
                         (TimerRunning 200) TimerStopped true 0))
    as (_ & _ & H).
  - reflexivity.
  - exists pattern_ble_pairing. split; [reflexivity|]. split; [reflexivity|].
    split; [cbn; lia|]. repeat constructor; cbn; lia.
  - reflexivity.
  - reflexivity.
  - reflexivity.
  - unfold valid_step; cbn; lia.
  - destruct (H 5%nat) as (s' & Hrun & Hact & _).
    exists s'. split; [exact Hrun|exact Hact].
Defined.

(** C5: in a pattern whose first step has [repeat_count != 0], when the
    step-advance logic is entered past the last step the phase becomes
    COMPLETE and the LED is turned off; if the entry has [auto_stop] and
    [auto_stop_delay_ms = D > 0] the auto-stop timer is started for [D]
    ms; its callback is [led_status_stop], after which the phase is IDLE
    and the status OFF. *)
Theorem C5_finite_pattern_completes (table : list led_pattern_config_t)
    (config : led_pattern_config_t) (first : led_pattern_step_t)
    (rest : list led_pattern_step_t) (fuel : nat) (s : led_system) :
  pattern_of table (current_status s) = Done config ->
  steps config = Some (first :: rest) ->
  repeat_count first <> 0 ->
  step_count config <= current_step s ->
  exists s',
    led_start_next_step table (S fuel) s = Done s'
    /\ pattern_state s' = LED_PATTERN_STATE_COMPLETE
    /\ led_state s' = false
    /\ blue_led s' = false
    /\ (auto_stop config = true -> 0 < auto_stop_delay_ms config ->
        auto_stop_timer s' = osTimerStart (auto_stop_timer s) (auto_stop_delay_ms config)
        /\ (auto_stop_timer s <> TimerNull ->
            auto_stop_timer s' = TimerRunning (auto_stop_delay_ms config)))
    /\ (forall x, auto_stop_timer_callback x = led_status_stop x)
    /\ pattern_state (auto_stop_timer_expires s') = LED_PATTERN_STATE_IDLE
    /\ current_status (auto_stop_timer_expires s') = LED_STATUS_OFF
    /\ led_state (auto_stop_timer_expires s') = false
    /\ is_running (auto_stop_timer (auto_stop_timer_expires s')) = false.
Proof.
  intros Htab Hfirst Hrep Hpast.
  rewrite (start_eq table fuel s config Htab).
  destruct (Z.geb_spec (current_step s) (step_count config)); [|lia].
  rewrite (step_at_first config first rest Hfirst), bind_done.
  destruct (Z.eqb_spec (repeat_count first) 0); [contradiction|].
  eexists. split; [reflexivity|].
  do 3 (split; [reflexivity|]).
  split.
  { intros Hauto Hd. rewrite Hauto.
    destruct (Z.gtb_spec (auto_stop_delay_ms config) 0); [|lia].
    cbn. split; [reflexivity|].
    destruct (auto_stop_timer s); [contradiction|reflexivity|reflexivity]. }
  split; [reflexivity|].
  do 3 (split; [reflexivity|]).
  cbn. destruct (auto_stop config && (auto_stop_delay_ms config >? 0));
    destruct (auto_stop_timer s); reflexivity.
Qed.

Lemma C5_finite_pattern_completes_witness :
  let table := [mk_config (Some [mk_step 100 100 1 1]) 1 true 3000] in
  let s := mk_system 0%N LED_PATTERN_STATE_ACTIVE 1 1 0 0 0 false
                     TimerStopped TimerStopped false 0 in
  exists s',
    led_start_next_step table 1 s = Done s'
    /\ pattern_state s' = LED_PATTERN_STATE_COMPLETE
    /\ auto_stop_timer s' = TimerRunning 3000
    /\ current_status (auto_stop_timer_expires s') = LED_STATUS_OFF.
Proof.
  cbv zeta.
  destruct (C5_finite_pattern_completes
              [mk_config (Some [mk_step 100 100 1 1]) 1 true 3000]
              (mk_config (Some [mk_step 100 100 1 1]) 1 true 3000)
              (mk_step 100 100 1 1) [] 0%nat
              (mk_system 0%N LED_PATTERN_STATE_ACTIVE 1 1 0 0 0 false
                         TimerStopped TimerStopped false 0))
    as (s' & Hrun & Hc & _ & _ & Harm & _ & _ & Hoff & _).
  - reflexivity.
  - reflexivity.
  - cbn; lia.
  - cbn; lia.
  - exists s'. split; [exact Hrun|]. split; [exact Hc|]. split; [|exact Hoff].
    apply Harm; [reflexivity|cbn; lia|discriminate].
Defined.

(** C7: for LED_STATUS_OFF, and for every status whose entry of
    [led_patterns] is the no-op pattern [pattern_off], [led_status_set]
    turns the LED off and leaves the phase COMPLETE with neither timer
    running; afterwards [led_status_is_active] is false and
    [led_status_get_current] is the status that was set. *)
Theorem C7_set_off_or_noop (fuel : nat) (status : led_status_t) (s : led_system) :
  (status < LED_STATUS_MAX)%N ->
  status = LED_STATUS_OFF
  \/ (exists config, pattern_of led_patterns status = Done config
                     /\ steps config = Some pattern_off) ->
  exists s',
    led_status_set led_patterns fuel status s = Done (SL_STATUS_OK, s')
    /\ led_state s' = false
    /\ blue_led s' = false
    /\ pattern_state s' = LED_PATTERN_STATE_COMPLETE
    /\ is_running (timer_handle s') = false
    /\ is_running (auto_stop_timer s') = false
    /\ led_status_is_active s' = false
    /\ led_status_get_current s' = status.
Proof.
  intros Hlt Hcase.
  assert (Hst : status = LED_STATUS_OFF \/ status = LED_STATUS_OTA_SUCCESS).
  { destruct Hcase as [->|(config & Htab & Hsteps)]; [left; reflexivity|].
    unfold LED_STATUS_MAX in Hlt.
    destruct status as [|p].
    - cbn in Htab. injection Htab as <-. discriminate.
    - repeat (match goal with
              | p : positive |- _ => destruct p; try (exfalso; lia)
              end);
        first [left; reflexivity | right; reflexivity
              | cbn in Htab; injection Htab as <-; discriminate]. }
  destruct s as [cs ps st fl rc t1 t2 led th ast bl tick].
  destruct Hst as [-> | ->]; eexists; (split; [reflexivity|]);
    destruct th, ast; repeat split.
Qed.

Lemma C7_set_off_or_noop_witness :
  let s := mk_system LED_STATUS_BLE_PAIRING LED_PATTERN_STATE_ACTIVE 0 0 0 0 0 true
                     (TimerRunning 200) TimerStopped true 0 in
  exists s',
    led_status_set led_patterns enough_fuel LED_STATUS_OTA_SUCCESS s
    = Done (SL_STATUS_OK, s')
    /\ led_state s' = false
    /\ led_status_is_active s' = false.
Proof.
  cbv zeta.
  destruct (C7_set_off_or_noop enough_fuel LED_STATUS_OTA_SUCCESS
              (mk_system LED_STATUS_BLE_PAIRING LED_PATTERN_STATE_ACTIVE 0 0 0 0 0 true
                         (TimerRunning 200) TimerStopped true 0))
    as (s' & Hrun & Hled & _ & _ & _ & _ & Hact & _).
  - reflexivity.
  - right. exists (mk_config (Some pattern_off) 1 true 0). split; reflexivity.
  - exists s'. split; [exact Hrun|]. split; [exact Hled|exact Hact].
Defined.

(** C9: [led_status_stop] is defined on every state; after it the phase
    is IDLE, the status OFF, the LED off and no timer running, and a
    second call changes nothing. *)
Theorem C9_stop_idempotent (s : led_system) :
  let s1 := led_status_stop s in
  pattern_state s1 = LED_PATTERN_STATE_IDLE
  /\ current_status s1 = LED_STATUS_OFF
  /\ led_state s1 = false
  /\ blue_led s1 = false
  /\ is_running (timer_handle s1) = false
  /\ is_running (auto_stop_timer s1) = false
  /\ led_status_stop s1 = s1.
Proof.
  destruct s as [cs ps st fl rc t1 t2 led th ast bl tick].
  destruct th, ast; repeat split.
Qed.

End LedStatusIndicatorProofs.

(* ===================================================================== *)
(** * Part V: further properties of the battery monitor                  *)
(* ===================================================================== *)

Module BatteryMonitorCoverage.
Import BatteryMonitor BatteryMonitorProofs.

Ltac open_monitor m :=
  destruct m as [[pp vv cc st ch w] [cb|] tm act run0].

Ltac unfold_monitor :=
  unfold battery_monitor_update_values, battery_update_state,
    battery_handle_state_change, battery_monitor_force_update,
    battery_monitor_stop, battery_monitor_start, battery_monitor_set_callback,
    battery_monitor_init in *;
  unfold_setters; cbn in *.

Ltac split_ifs :=
  repeat (match goal with
          | |- context [if ?b then _ else _] => destruct b eqn:?
          end; cbn in *).

Lemma handle_state_change_flag (old new : battery_state_t) (m : monitor) :
  is_low_battery_warning_active
    (g_battery_status (fst (battery_handle_state_change old new m)))
  = match new with
    | BATTERY_STATE_LOW | BATTERY_STATE_CRITICAL => true
    | BATTERY_STATE_UNKNOWN => is_low_battery_warning_active (g_battery_status m)
    | _ => false
    end.
Proof.
  destruct m as [[pp vv cc st ch w] [cb|] tm act run0];
    destruct new, w; reflexivity.
Qed.

Lemma handle_state_change_calls (old new : battery_state_t) (m : monitor) :
  snd (battery_handle_state_change old new m)
  = match g_state_callback m with
    | Some f => [mk_call f old new
                   (g_battery_status (fst (battery_handle_state_change old new m)))]
    | None => []
    end.
Proof.
  destruct m as [[pp vv cc st ch w] [cb|] tm act run0]; reflexivity.
Qed.

(** [update_values] step by step: the readings are stored, the state is
    derived, and a change is handled. *)
Lemma update_values_unfold (p : Z) (v c : float) (m : monitor) :
  let m1 := battery_update_state
              (set_status (set_readings p v c (g_battery_status m)) m) in
  battery_monitor_update_values p v c m
  = if decide (state (g_battery_status m1) <> state (g_battery_status m))
    then battery_handle_state_change (state (g_battery_status m))
           (state (g_battery_status m1)) m1
    else (m1, []).
Proof. reflexivity. Qed.

Lemma update_values_warning_justified (p : Z) (v c : float) (m : monitor) :
  warning_justified m ->
  warning_justified (fst (battery_monitor_update_values p v c m)).
Proof.
  unfold warning_justified. intros H.
  rewrite update_values_unfold. cbv zeta.
  set (m1 := battery_update_state _).
  pose proof (update_state_known
                (set_status (set_readings p v c (g_battery_status m)) m)) as Hk.
  fold m1 in Hk.
  case_decide as Hd.
  - rewrite handle_state_change_flag, handle_state_change_state.
    destruct (state (g_battery_status m1)); intros; try discriminate; auto.
    contradiction Hk; reflexivity.
  - cbn [fst]. rewrite Hd.
    change (is_low_battery_warning_active (g_battery_status m1))
      with (is_low_battery_warning_active (g_battery_status m)).
    exact H.
Qed.

Lemma run_warning_justified (o : operation) (m : monitor) :
  classified m -> warning_justified m -> warning_justified (fst (run o m)).
Proof.
  intros Hc H. destruct o as [t|r| |f| |p v c| | | |]; cbn [run fst].
  - destruct t; intros ?; discriminate.
  - destruct m as [s cb [tm|] act run0], r; exact H.
  - unfold warning_justified in *. open_monitor m; unfold_monitor;
      destruct w, tm; cbn in *; intros; try discriminate; auto.
  - exact H.
  - unfold battery_monitor_force_update. rewrite Hc. exact H.
  - apply update_values_warning_justified, H.
  - unfold battery_monitor_timer_callback.
    destruct (negb (g_monitor_active m)); [exact H|].
    apply update_values_warning_justified, H.
  - apply update_values_warning_justified, H.
  - apply update_values_warning_justified, H.
  - apply update_values_warning_justified, H.
Qed.

Lemma initialized_warning_justified (m : monitor) :
  initialized m -> warning_justified m.
Proof.
  induction 1 as [t m0|o m Hm IH].
  - destruct t; intros ?; discriminate.
  - apply run_warning_justified; [apply initialized_classified, Hm|exact IH].
Qed.

Lemma classified_charging (m : monitor) :
  classified m ->
  is_charging (g_battery_status m)
  = float_gt (charging_current_ma (g_battery_status m)) (float_of_Z 50)
  /\ (is_charging (g_battery_status m) = true <->
      state (g_battery_status m) = BATTERY_STATE_CHARGING
      \/ state (g_battery_status m) = BATTERY_STATE_FULL).
Proof.
  unfold classified. open_monitor m; unfold_monitor;
    intros H; injection H as Hst Hch; rewrite <- Hst;
    change (float_of_Z CHARGING_CURRENT_THRESHOLD_MA) with (float_of_Z 50) in *;
    rewrite Hch; destruct ch; split_ifs;
    (split; [reflexivity|]); split; intros; auto; try discriminate;
    intuition discriminate.
Qed.

Lemma no_calls_well_formed (m m' : monitor) : well_formed_calls m m' [].
Proof.
  split; [cbn; lia|]. split; [reflexivity|].
  intros c Hc. apply elem_of_nil in Hc. destruct Hc.
Qed.

Lemma update_values_calls (p : Z) (v c : float) (m : monitor) :
  well_formed_calls m (fst (battery_monitor_update_values p v c m))
                    (snd (battery_monitor_update_values p v c m)).
Proof.
  rewrite update_values_unfold. cbv zeta.
  set (m1 := battery_update_state _).
  pose proof (update_state_known
                (set_status (set_readings p v c (g_battery_status m)) m)) as Hk.
  fold m1 in Hk.
  assert (Hcb : g_state_callback m1 = g_state_callback m) by reflexivity.
  case_decide as Hd; [|apply no_calls_well_formed].
  unfold well_formed_calls.
  rewrite handle_state_change_calls, Hcb, handle_state_change_state.
  destruct (g_state_callback m) as [f|].
  - split; [cbn; lia|]. split; [discriminate|].
    intros x Hx. apply elem_of_cons in Hx as [->|Hx];
      [|apply elem_of_nil in Hx; destruct Hx].
    cbn [call_fn call_old_state call_new_state call_status].
    repeat split; auto.
  - split; [cbn; lia|]. split; [reflexivity|].
    intros x Hx. apply elem_of_nil in Hx. destruct Hx.
Qed.

(** ** Properties *)

(** X1: [battery_monitor_start] succeeds exactly when [battery_monitor_init]
    created the timer and the kernel starts it; before any [init] and
    after a failed one it answers SL_STATUS_NOT_INITIALIZED, on a kernel
    failure SL_STATUS_FAIL, and in both cases leaves the monitor as it
    was; on success the monitor is active with the 5000 ms period. *)
Theorem X1_start_needs_created_timer (t : option osTimerId_t) (r : osStatus_t)
    (m : monitor) :
  let i := battery_monitor_init t m in
  let s := battery_monitor_start r (snd i) in
  (fst s = SL_STATUS_OK <-> fst i = SL_STATUS_OK /\ r = osOK)
  /\ (fst s = SL_STATUS_NOT_INITIALIZED <-> fst i = SL_STATUS_FAIL)
  /\ (fst s <> SL_STATUS_OK -> snd s = snd i)
  /\ (fst s = SL_STATUS_OK ->
      g_monitor_active (snd s) = true
      /\ timer_running (snd s) = Some BATTERY_MONITOR_PERIOD_MS
      /\ g_battery_status (snd s) = g_battery_status (snd i)
      /\ g_state_callback (snd s) = g_state_callback m)
  /\ battery_monitor_start r static_monitor
     = (SL_STATUS_NOT_INITIALIZED, static_monitor).
Proof.
  cbn zeta. destruct t, r; cbn; repeat split; intros; try discriminate;
    try congruence; intuition discriminate.
Qed.

(** X2: the periodic callback acts only on an active monitor: on an
    inactive one, in particular after [battery_monitor_stop] and after a
    [battery_monitor_start] that did not succeed on an inactive monitor,
    it changes nothing and calls nothing. *)
Theorem X2_timer_callback_guarded (r : osStatus_t) (m : monitor) :
  (g_monitor_active m = false -> battery_monitor_timer_callback m = (m, []))
  /\ battery_monitor_timer_callback (battery_monitor_stop m)
     = (battery_monitor_stop m, [])
  /\ (g_monitor_active m = false ->
      fst (battery_monitor_start r m) <> SL_STATUS_OK ->
      battery_monitor_timer_callback (snd (battery_monitor_start r m))
      = (snd (battery_monitor_start r m), []))
  /\ battery_monitor_timer_callback static_monitor = (static_monitor, []).
Proof.
  repeat split.
  - intros H. unfold battery_monitor_timer_callback. rewrite H. reflexivity.
  - intros Hact Hfail. unfold battery_monitor_timer_callback.
    destruct m as [s cb [tm|] act run0], r; cbn in *; subst; try reflexivity.
    contradiction Hfail; reflexivity.
Qed.

(** X3: a tick on an active monitor stores the stub reading (85 percent,
    no current): the state becomes NORMAL and not charging whatever it
    was; the observer is called exactly when the state was not NORMAL
    before, and then the warning flag is down. *)
Theorem X3_active_tick_is_normal (m : monitor) :
  g_monitor_active m = true ->
  let r := battery_monitor_timer_callback m in
  let s := g_battery_status (fst r) in
  battery_percent s = 85
  /\ state s = BATTERY_STATE_NORMAL
  /\ is_charging s = false
  /\ (state (g_battery_status m) = BATTERY_STATE_NORMAL -> snd r = [])
  /\ (state (g_battery_status m) <> BATTERY_STATE_NORMAL ->
      is_low_battery_warning_active s = false
      /\ forall f, g_state_callback m = Some f ->
           snd r = [mk_call f (state (g_battery_status m)) BATTERY_STATE_NORMAL s]).
Proof.
  intros Hact. unfold battery_monitor_timer_callback. rewrite Hact. cbn [negb].
  change (float_mul (S754_zero false) (float_of_Z 1000)) with (S754_zero false).
  open_monitor m; destruct st, w; cbn; repeat split; intros; try congruence;
    match goal with
    | H : Some _ = Some _ |- _ => injection H as <-; reflexivity
    end.
Qed.

Lemma X3_active_tick_is_normal_witness :
  let m := snd (battery_monitor_start osOK
                  (fst (battery_monitor_simulate_low_battery
                          (snd (battery_monitor_init (Some 0%nat) static_monitor))))) in
  state (g_battery_status (fst (battery_monitor_timer_callback m)))
  = BATTERY_STATE_NORMAL.
Proof.
  cbv zeta.
  apply (X3_active_tick_is_normal
           (snd (battery_monitor_start osOK
                   (fst (battery_monitor_simulate_low_battery
                           (snd (battery_monitor_init (Some 0%nat) static_monitor))))))).
  reflexivity.
Defined.

(** X4: on an initialized monitor the warning flag is up only while the
    state is LOW or CRITICAL. *)
Theorem X4_warning_only_when_low (m : monitor) :
  initialized m ->
  is_low_battery_warning_active (g_battery_status m) = true ->
  state (g_battery_status m) = BATTERY_STATE_LOW
  \/ state (g_battery_status m) = BATTERY_STATE_CRITICAL.
Proof. intros Hm. exact (initialized_warning_justified m Hm). Qed.

Lemma X4_warning_only_when_low_witness :
  let m := fst (battery_monitor_simulate_low_battery
                  (snd (battery_monitor_init (Some 0%nat) static_monitor))) in
  state (g_battery_status m) = BATTERY_STATE_LOW
  \/ state (g_battery_status m) = BATTERY_STATE_CRITICAL.
Proof.
  cbv zeta.
  apply (X4_warning_only_when_low
           (fst (run OpSimulateLowBattery
                   (snd (battery_monitor_init (Some 0%nat) static_monitor))))).
  - apply initialized_run, initialized_init.
  - reflexivity.
Defined.

(** X5: on an initialized monitor [is_charging] is the comparison of the
    stored current with 50 mA, and it is true exactly in the states
    CHARGING and FULL. *)
Theorem X5_is_charging_matches_state (m : monitor) :
  initialized m ->
  is_charging (g_battery_status m)
  = float_gt (charging_current_ma (g_battery_status m)) (float_of_Z 50)
  /\ (is_charging (g_battery_status m) = true <->
      state (g_battery_status m) = BATTERY_STATE_CHARGING
      \/ state (g_battery_status m) = BATTERY_STATE_FULL).
Proof. intros Hm. apply classified_charging, initialized_classified, Hm. Qed.

Lemma X5_is_charging_matches_state_witness :
  let m := fst (battery_monitor_simulate_charging_start
                  (snd (battery_monitor_init (Some 0%nat) static_monitor))) in
  is_charging (g_battery_status m) = true <->
  state (g_battery_status m) = BATTERY_STATE_CHARGING
  \/ state (g_battery_status m) = BATTERY_STATE_FULL.
Proof.
  cbv zeta.
  apply (X5_is_charging_matches_state
           (fst (run OpSimulateChargingStart
                   (snd (battery_monitor_init (Some 0%nat) static_monitor))))).
  apply initialized_run, initialized_init.
Defined.

(** X6: whatever public operation runs on whatever monitor, it calls the
    observer at most once, and only the registered one; a call carries
    the state before and the state after, which differ, and the status
    record as it is after the operation; with no observer registered no
    call is made. *)
Theorem X6_calls_are_state_changes (o : operation) (m : monitor) :
  well_formed_calls m (fst (run o m)) (snd (run o m)).
Proof.
  destruct o as [t|r| |f| |p v c| | | |]; cbn [run fst snd];
    try apply no_calls_well_formed; try apply update_values_calls.
  unfold battery_monitor_timer_callback.
  destruct (negb (g_monitor_active m)); cbn [fst snd];
    [apply no_calls_well_formed|apply update_values_calls].
Qed.

(** X7: repeating [battery_monitor_update_values] with the same readings
    changes nothing and calls nothing. *)
Theorem X7_same_readings_twice (p : Z) (v c : float) (m : monitor) :
  let m1 := fst (battery_monitor_update_values p v c m) in
  battery_monitor_update_values p v c m1 = (m1, []).
Proof.
  cbn zeta.
  pose proof (update_values_classified p v c m) as Hc.
  pose proof (update_values_status p v c m) as (Hp & Hv & Hcur & _).
  cbn zeta in *.
  pose proof (classified_update_stored _ Hc) as H.
  unfold OpUpdateStored in H. cbn [run] in H.
  rewrite Hp, Hv, Hcur in H. exact H.
Qed.

(** X8: what [battery_monitor_update_values] stores, the warning flag
    included, does not depend on whether an observer is registered. *)
Theorem X8_status_independent_of_observer (f : option battery_state_callback_t)
    (p : Z) (v c : float) (m : monitor) :
  g_battery_status
    (fst (battery_monitor_update_values p v c
            (snd (battery_monitor_set_callback f m))))
  = g_battery_status (fst (battery_monitor_update_values p v c m)).
Proof.
  rewrite !update_values_unfold. cbv zeta.
  destruct m as [s cb tm act run0].
  unfold battery_monitor_set_callback, battery_update_state, set_status.
  cbn [snd g_battery_status g_state_callback g_monitor_timer g_monitor_active
       timer_running].
  case_decide; [|reflexivity].
  unfold battery_handle_state_change, set_status.
  cbn [g_battery_status g_state_callback g_monitor_timer g_monitor_active
       timer_running].
  destruct f, cb; reflexivity.
Qed.

(** X9: [battery_monitor_stop] takes the warning flag down and keeps
    the readings, the state, [is_charging], the observer and the timer
    handle; it leaves the monitor inactive, its timer not running, and a
    second stop changes nothing. An update that then leaves the state as
    it was makes no call and does not raise the flag again, also when the
    state is LOW or CRITICAL. *)
Theorem X9_stop_silences_warning (p : Z) (v c : float) (m : monitor) :
  let s := g_battery_status m in
  let m1 := battery_monitor_stop m in
  let s1 := g_battery_status m1 in
  let r := battery_monitor_update_values p v c m1 in
  (is_low_battery_warning_active s1 = false
   /\ battery_percent s1 = battery_percent s
   /\ battery_voltage s1 = battery_voltage s
   /\ charging_current_ma s1 = charging_current_ma s
   /\ state s1 = state s
   /\ is_charging s1 = is_charging s
   /\ g_state_callback m1 = g_state_callback m
   /\ g_monitor_timer m1 = g_monitor_timer m
   /\ g_monitor_active m1 = false
   /\ (g_monitor_timer m <> None -> timer_running m1 = None)
   /\ battery_monitor_stop m1 = m1)
  /\ (state (g_battery_status (fst r)) = state s ->
      snd r = []
      /\ is_low_battery_warning_active (g_battery_status (fst r)) = false).
Proof.
  cbv zeta.
  assert (Hstop : is_low_battery_warning_active
                    (g_battery_status (battery_monitor_stop m)) = false
                  /\ state (g_battery_status (battery_monitor_stop m))
                     = state (g_battery_status m))
    by (destruct m as [[pp vv cc st ch w] cb tm act run0];
        destruct w, tm; repeat split).
  destruct Hstop as (Hf & Hs).
  split.
  - destruct m as [[pp vv cc st ch w] cb tm act run0].
    destruct w, tm; repeat split; intros; try reflexivity;
      cbn in *; congruence.
  - rewrite update_values_unfold. cbv zeta.
    set (m1 := battery_update_state _).
    case_decide as Hd.
    + rewrite handle_state_change_state. intros Hsame.
      rewrite Hs in Hd. contradiction.
    + intros _. split; [reflexivity|].
      cbn [fst].
      change (is_low_battery_warning_active (g_battery_status m1))
        with (is_low_battery_warning_active
                (g_battery_status (battery_monitor_stop m))).
      exact Hf.
Qed.

Lemma X9_stop_silences_warning_witness :
  let m := fst (battery_monitor_simulate_low_battery
                  (snd (battery_monitor_init (Some 0%nat) static_monitor))) in
  let r := battery_monitor_update_values 12 (float_lit 31 10) (S754_zero false)
             (battery_monitor_stop m) in
  is_low_battery_warning_active (g_battery_status m) = true
  /\ state (g_battery_status (fst r)) = BATTERY_STATE_LOW
  /\ snd r = []
  /\ is_low_battery_warning_active (g_battery_status (fst r)) = false.
Proof.
  cbv zeta. split; [reflexivity|]. split; [reflexivity|].
  apply (proj2 (X9_stop_silences_warning 12 (float_lit 31 10) (S754_zero false)
                  (fst (battery_monitor_simulate_low_battery
                          (snd (battery_monitor_init (Some 0%nat) static_monitor)))))).
  reflexivity.
Defined.

(** X10: on an initialized monitor the three simulation functions lead
    to LOW (not charging), CHARGING (charging, warning down) and, for
    [battery_monitor_simulate_charging_complete], NORMAL and not charging
    (warning down): its 20 mA are below the charging threshold, so FULL
    is not reached. *)
Theorem X10_simulations (m : monitor) :
  initialized m ->
  let low := g_battery_status (fst (battery_monitor_simulate_low_battery m)) in
  let chg := g_battery_status (fst (battery_monitor_simulate_charging_start m)) in
  let full := g_battery_status (fst (battery_monitor_simulate_charging_complete m)) in
  (state low = BATTERY_STATE_LOW /\ is_charging low = false
   /\ (state (g_battery_status m) <> BATTERY_STATE_LOW ->
       is_low_battery_warning_active low = true))
  /\ (state chg = BATTERY_STATE_CHARGING /\ is_charging chg = true
      /\ is_low_battery_warning_active chg = false)
  /\ (state full = BATTERY_STATE_NORMAL /\ is_charging full = false
      /\ is_low_battery_warning_active full = false).
Proof.
  intros Hm. pose proof (initialized_warning_justified m Hm) as Hw.
  unfold warning_justified in Hw. cbn zeta.
  unfold battery_monitor_simulate_low_battery,
    battery_monitor_simulate_charging_start,
    battery_monitor_simulate_charging_complete.
  open_monitor m; destruct st, w; cbn in *;
    repeat split; intros; try congruence;
    destruct (Hw eq_refl); discriminate.
Qed.

Lemma X10_simulations_witness :
  state (g_battery_status
           (fst (battery_monitor_simulate_charging_complete
                   (snd (battery_monitor_init (Some 0%nat) static_monitor)))))
  = BATTERY_STATE_NORMAL.
Proof.
  apply (X10_simulations (snd (battery_monitor_init (Some 0%nat) static_monitor))).
  apply initialized_init.
Defined.

End BatteryMonitorCoverage.

(* ===================================================================== *)
(** * Part VI: further properties of the LED status indicator            *)
(* ===================================================================== *)

Module LedStatusIndicatorCoverage.
Import LedStatusIndicator LedStatusIndicatorProofs.

Section Effects.
Variable table : list led_pattern_config_t.

Lemma step_effect_entry (s1 s2 s' : led_system) :
  same_entry s1 s2 -> step_effect table s1 s' -> step_effect table s2 s'.
Proof.
  intros (H1 & H2 & H3 & H4 & H5 & H6 & H7). unfold step_effect.
  rewrite H1, H2, H3, H4, H5, H6, H7. auto.
Qed.

Ltac entry := repeat split; reflexivity.

Lemma armed_effect (s s0 : led_system) (b : bool) (d : Z) :
  0 < d -> same_entry s0 s ->
  step_effect table s
    (set_timer_handle (osTimerStart (timer_handle s0) d)
       (led_set_physical_state b s0)).
Proof.
  intros Hd (H1 & H2 & H3 & H4 & H5 & H6 & H7). unfold step_effect. cbn.
  rewrite H1, H2, H3, H4, H5, H6, H7. do 5 (split; [reflexivity|]).
  left. do 2 (split; [reflexivity|]). exists d. auto.
Qed.

(** Whatever the table, a call of the step-advance logic that returns
    has either armed the step timer for a positive delay and left the
    phase alone, or finished the pattern. *)
Lemma step_effects (fuel : nat) :
  (forall s s', led_start_next_step table fuel s = Done s' -> step_effect table s s')
  /\ (forall s s', led_process_current_step table fuel s = Done s' ->
                   step_effect table s s').
Proof.
  induction fuel as [|fuel [IHs IHp]]; [split; intros; discriminate|].
  split; intros s s'.
  - cbn [led_start_next_step].
    destruct (pattern_of table (current_status s)) as [config| |] eqn:Htab;
      cbn [mbind outcome_bind]; try discriminate.
    destruct (current_step s >=? step_count config).
    + destruct (step_at config 0) as [first_step| |];
        cbn [mbind outcome_bind]; try discriminate.
      destruct (repeat_count first_step =? 0).
      * intros H. apply IHp in H. eapply step_effect_entry; [|exact H]. entry.
      * intros H.
        assert (s' = set_auto_stop_timer
                       (if auto_stop config && (auto_stop_delay_ms config >? 0)
                        then osTimerStart (auto_stop_timer s) (auto_stop_delay_ms config)
                        else auto_stop_timer s)
                       (led_set_physical_state false
                          (set_pattern_state LED_PATTERN_STATE_COMPLETE s))) as ->.
        { destruct (auto_stop config && (auto_stop_delay_ms config >? 0));
            injection H as <-; destruct s; reflexivity. }
        unfold step_effect. cbn. do 5 (split; [reflexivity|]). right.
        do 3 (split; [reflexivity|]). exists config. split; [exact Htab|reflexivity].
    + intros H. apply IHp in H. eapply step_effect_entry; [|exact H]. entry.
  - cbn [led_process_current_step].
    destruct (pattern_of table (current_status s)) as [config| |];
      cbn [mbind outcome_bind]; try discriminate.
    destruct (step_at config (current_step s)) as [step| |];
      cbn [mbind outcome_bind]; try discriminate.
    destruct ((current_flash s >=? flash_count step) && (flash_count step >? 0)).
    + intros H. apply IHs in H. eapply step_effect_entry; [|exact H]. entry.
    + destruct ((on_time_ms step =? 0) && (off_time_ms step =? 0)).
      { intros H. injection H as <-. apply armed_effect; [lia|entry]. }
      destruct (negb (led_state s)).
      * destruct (Z.gtb_spec (on_time_ms step) 0) as [Hpos|Hpos].
        -- intros H. injection H as <-. apply armed_effect; [lia|entry].
        -- intros H. apply IHp in H. eapply step_effect_entry; [|exact H]. entry.
      * destruct (Z.gtb_spec (off_time_ms step) 0) as [Hpos|Hpos].
        -- intros H. injection H as <-.
           apply (armed_effect s (set_current_flash (incr_u8 (current_flash s)) s));
             [lia|entry].
        -- intros H. apply IHp in H. eapply step_effect_entry; [|exact H]. entry.
Qed.

End Effects.


(** ** The invariant of the sequencer *)

Lemma init_invariant (s0 : led_system) :
  sequencer_invariant (snd (led_status_indicator_init true true s0)).
Proof.
  destruct s0 as [cs ps st fl rc t1 t2 led th ast bl tick].
  unfold sequencer_invariant. cbn.
  repeat split; intros; try discriminate; try reflexivity; try congruence.
Qed.

Lemma stop_invariant (s : led_system) :
  timer_handle s <> TimerNull -> auto_stop_timer s <> TimerNull ->
  repeat_counter s = 0 ->
  sequencer_invariant (led_status_stop s).
Proof.
  destruct s as [cs ps st fl rc t1 t2 led th ast bl tick]. cbn.
  intros H1 H2 ->. unfold sequencer_invariant. cbn.
  destruct th, ast; try contradiction; cbn;
    repeat split; intros; try discriminate; try reflexivity; try congruence.
Qed.





(** ** The invariant that survives a repeated init *)

Lemma sequencer_context (s : led_system) :
  sequencer_invariant s -> context_invariant s.
Proof.
  intros (H1 & H2 & H3 & H4 & H5 & H6 & H7 & H8 & H9).
  unfold context_invariant. do 5 (split; [assumption|]).
  split; [apply H6|]. do 2 (split; [assumption|]). assumption.
Qed.

(** A call of the step-advance logic that returns, made in phase ACTIVE
    with the auto-stop timer not running, re-establishes the invariant. *)
Lemma step_effect_context_invariant (table : list led_pattern_config_t)
    (s s' : led_system) :
  step_effect table s s' ->
  (current_status s < LED_STATUS_MAX)%N ->
  repeat_counter s = 0 ->
  timer_handle s <> TimerNull ->
  auto_stop_timer s <> TimerNull ->
  is_running (auto_stop_timer s) = false ->
  pattern_state s = LED_PATTERN_STATE_ACTIVE ->
  context_invariant s'.
Proof.
  intros (Hst & Hrc & _ & _ & Hled & Hcase) Hlt Hzero Hth Hast Hnr Hact.
  unfold context_invariant. rewrite Hst, Hrc.
  destruct Hcase as [(Hps & Ha & d & Hd & Ht)|(Hps & Hoff & Ht & config & _ & Ha)].
  - rewrite Hps, Ha, Ht, Hact, Hnr.
    destruct (timer_handle s); [contradiction|..]; cbn;
      repeat split; intros; try discriminate; try reflexivity; try assumption;
      try congruence.
  - rewrite Hps, Ht, Ha.
    destruct (auto_stop config && (auto_stop_delay_ms config >? 0)),
      (auto_stop_timer s); try contradiction; cbn in *;
      repeat split; intros; try discriminate; try reflexivity; try assumption;
      try congruence.
Qed.

Lemma callback_context_invariant (table : list led_pattern_config_t) (fuel : nat)
    (s s' : led_system) :
  context_invariant s ->
  led_timer_callback table fuel s = Done s' ->
  context_invariant s'.
Proof.
  intros Hinv Hrun.
  pose proof Hinv as (Hm & Hlt & Hrc & Hth & Hast & Hact & Hauto & Hidle & Hoff).
  unfold led_timer_callback in Hrun.
  case_bool_decide as Ha; [|injection Hrun as <-; exact Hinv].
  apply (proj2 (step_effects table fuel)) in Hrun.
  apply (step_effect_context_invariant table s s' Hrun); try assumption.
  destruct (is_running (auto_stop_timer s)); [|reflexivity].
  specialize (Hauto eq_refl). congruence.
Qed.

Lemma run_context_invariant (table : list led_pattern_config_t) (fuel : nat)
    (ev : led_event) (s s' : led_system) :
  context_invariant s ->
  led_run table fuel ev s = Done s' ->
  context_invariant s'.
Proof.
  intros Hinv Hrun.
  pose proof Hinv as (Hm & Hlt & Hrc & Hth & Hast & Hact & Hauto & Hidle & Hoff).
  destruct ev as [status| | | |now]; cbn [led_run] in Hrun.
  - unfold led_status_set in Hrun.
    destruct (N.leb_spec LED_STATUS_MAX status) as [|Hin].
    { cbn in Hrun. injection Hrun as <-. exact Hinv. }
    destruct ((status =? LED_STATUS_OFF)%N || (status =? LED_STATUS_OTA_SUCCESS)%N).
    { cbn in Hrun. injection Hrun as <-.
      destruct s as [cs ps st fl rc t1 t2 led th ast bl tick]. cbn in *.
      unfold context_invariant. cbn.
      destruct th, ast; try contradiction; cbn;
        repeat split; intros; try discriminate; try reflexivity; try congruence. }
    match type of Hrun with
    | context [led_start_next_step _ _ ?s0] =>
        destruct (led_start_next_step table fuel s0) as [s1| |] eqn:Hs;
          cbn in Hrun; try discriminate;
          injection Hrun as <-;
          apply (proj1 (step_effects table fuel)) in Hs;
          apply (step_effect_context_invariant table s0 s1 Hs)
    end; cbn; try assumption; try reflexivity.
    + destruct (timer_handle s); [contradiction|discriminate|discriminate].
    + destruct (auto_stop_timer s); [contradiction|discriminate|discriminate].
    + destruct (auto_stop_timer s); reflexivity.
  - injection Hrun as <-. apply sequencer_context, stop_invariant; assumption.
  - destruct (is_running (timer_handle s)) eqn:Hr;
      [|injection Hrun as <-; exact Hinv].
    unfold led_timer_expires, led_timer_callback in Hrun.
    cbn [pattern_state set_timer_handle] in Hrun.
    case_bool_decide as Ha.
    + apply (proj2 (step_effects table fuel)) in Hrun.
      apply (step_effect_context_invariant table _ s' Hrun); cbn; try assumption.
      * destruct (timer_handle s); discriminate.
      * destruct (is_running (auto_stop_timer s)); [|reflexivity].
        specialize (Hauto eq_refl). congruence.
    + injection Hrun as <-. unfold context_invariant. cbn.
      do 3 (split; [assumption|]).
      split; [destruct (timer_handle s); discriminate|].
      split; [assumption|].
      split; [intros; contradiction|].
      split; [assumption|]. split; assumption.
  - destruct (is_running (auto_stop_timer s)) eqn:Hr;
      [|injection Hrun as <-; exact Hinv].
    injection Hrun as <-. unfold auto_stop_timer_expires, auto_stop_timer_callback.
    apply sequencer_context, stop_invariant; cbn; try assumption.
    destruct (auto_stop_timer s); discriminate.
  - injection Hrun as <-. exact Hinv.
Qed.

Lemma reachable_context_invariant (table : list led_pattern_config_t)
    (s : led_system) :
  led_reachable table s -> context_invariant s.
Proof.
  induction 1 as [s0|fuel ev s s' _ IH Hrun|fuel s s' _ IH Hrun|s _ IH].
  - apply sequencer_context, init_invariant.
  - exact (run_context_invariant table fuel ev s s' IH Hrun).
  - exact (callback_context_invariant table fuel s s' IH Hrun).
  - destruct IH as (_ & _ & Hrc & Hth & Hast & _).
    apply sequencer_context, stop_invariant; assumption.
Qed.


(** ** [led_status_set], whatever the table *)

Lemma set_effects (table : list led_pattern_config_t) (fuel : nat)
    (status : led_status_t) (s : led_system) (r : sl_status_t) (s' : led_system) :
  led_status_set table fuel status s = Done (r, s') ->
  set_effect table status s r s'.
Proof.
  unfold led_status_set, set_effect. intros Hrun.
  destruct (N.leb_spec LED_STATUS_MAX status) as [Hout|Hin].
  { injection Hrun as <- <-. left. auto. }
  right. split; [exact Hin|].
  destruct ((status =? LED_STATUS_OFF)%N || (status =? LED_STATUS_OTA_SUCCESS)%N).
  { injection Hrun as <- <-. cbn. do 5 (split; [reflexivity|]).
    right. do 3 (split; [reflexivity|]). left. reflexivity. }
  match type of Hrun with
  | context [led_start_next_step _ _ ?s0] =>
      destruct (led_start_next_step table fuel s0) as [s1| |] eqn:Hs;
        cbn in Hrun; try discriminate;
        injection Hrun as <- <-;
        apply (proj1 (step_effects table fuel)) in Hs
  end.
  destruct Hs as (Hst & Hrc & Hpt & _ & Hled & Hcase). cbn in *.
  split; [reflexivity|]. do 4 (split; [assumption|]).
  destruct Hcase as [(Hps & Ha & d & Hd & Ht)|(Hps & Hoff & Ht & config & Htab & Ha)].
  - left. split; [exact Hps|]. split; [exact Ha|]. exists d. auto.
  - right. do 3 (split; [assumption|]).
    destruct (auto_stop config) eqn:Hauto;
      destruct (Z.gtb_spec (auto_stop_delay_ms config) 0); cbn in Ha;
      try (left; exact Ha).
    right. exists config. auto.
Qed.

(** ** Properties *)

(** X11: [led_status_indicator_init] succeeds exactly when both timers
    can be created and fails with SL_STATUS_FAIL otherwise; in every case
    it resets the context to OFF / IDLE with [led_state] false; only on
    success is the LED itself switched off, and when the first timer
    cannot be created the second handle is left as it was. *)
Theorem X11_init_outcomes (timer_created auto_stop_created : bool) (s0 : led_system) :
  let r := led_status_indicator_init timer_created auto_stop_created s0 in
  (fst r = SL_STATUS_OK <-> timer_created = true /\ auto_stop_created = true)
  /\ (fst r <> SL_STATUS_OK -> fst r = SL_STATUS_FAIL)
  /\ current_status (snd r) = LED_STATUS_OFF
  /\ pattern_state (snd r) = LED_PATTERN_STATE_IDLE
  /\ led_state (snd r) = false
  /\ (fst r = SL_STATUS_OK ->
      blue_led (snd r) = false
      /\ timer_handle (snd r) = TimerStopped
      /\ auto_stop_timer (snd r) = TimerStopped)
  /\ (fst r <> SL_STATUS_OK -> blue_led (snd r) = blue_led s0)
  /\ (timer_created = false -> auto_stop_timer (snd r) = auto_stop_timer s0).
Proof.
  destruct s0 as [cs ps st fl rc t1 t2 led th ast bl tick].
  destruct timer_created, auto_stop_created; cbn;
    repeat split; intros; try discriminate; try congruence;
    try (destruct H; discriminate); try (contradiction H; reflexivity).
  all: intuition discriminate.
Qed.

(** X12: [led_status_set] does not check that the timers exist. With a
    null step-timer handle (no [init], or a failed one) a call that
    returns still reports its usual status, but the step timer is never
    started, so no expiry follows and the pattern does not advance. *)
Theorem X12_set_without_timer_is_stuck (table : list led_pattern_config_t)
    (fuel fuel' : nat) (status : led_status_t) (s : led_system)
    (r : sl_status_t) (s' : led_system) :
  timer_handle s = TimerNull ->
  led_status_set table fuel status s = Done (r, s') ->
  (r = SL_STATUS_OK <-> (status < LED_STATUS_MAX)%N)
  /\ timer_handle s' = TimerNull
  /\ led_run table fuel' EvStepTimer s' = Done s'.
Proof.
  intros Hnull Hrun. apply set_effects in Hrun.
  assert (Ht : timer_handle s' = TimerNull).
  { destruct Hrun as [(_ & _ & ->)|(_ & _ & _ & _ & _ & _ & Hcase)]; [exact Hnull|].
    destruct Hcase as [(_ & _ & d & _ & Ht)|(_ & _ & Ht & _)];
      rewrite Ht, Hnull; reflexivity. }
  split; [|split; [exact Ht|cbn; rewrite Ht; reflexivity]].
  destruct Hrun as [(Hout & -> & _)|(Hin & -> & _)]; split; intros;
    try discriminate; try reflexivity; try assumption; lia.
Qed.

Lemma X12_set_without_timer_is_stuck_witness :
  let s' := mk_system LED_STATUS_POWER_ON LED_PATTERN_STATE_ACTIVE 0 0 0 0 0 true
                      TimerNull TimerNull true 0 in
  led_status_set led_patterns enough_fuel LED_STATUS_POWER_ON (static_system 0)
  = Done (SL_STATUS_OK, s')
  /\ led_run led_patterns enough_fuel EvStepTimer s' = Done s'.
Proof.
  cbv zeta. split; [reflexivity|].
  exact (proj2 (proj2
    (X12_set_without_timer_is_stuck led_patterns enough_fuel enough_fuel
       LED_STATUS_POWER_ON (static_system 0) SL_STATUS_OK
       (mk_system LED_STATUS_POWER_ON LED_PATTERN_STATE_ACTIVE 0 0 0 0 0 true
                  TimerNull TimerNull true 0)
       eq_refl eq_refl))).
Defined.



(** A repeated init over a running step timer: after init,
    set(BLE_PAIRING), init again and set(POWER_ON), the callback of the
    first step timer arrives and finishes the pattern while the second
    step timer still runs for its 2000 ms. *)
Example reinit_over_running_timer :
  let s2 := mk_system LED_STATUS_BLE_PAIRING LED_PATTERN_STATE_ACTIVE 0 0 0 0 0 true
                      (TimerRunning 200) TimerStopped true 0 in
  let s4 := mk_system LED_STATUS_POWER_ON LED_PATTERN_STATE_ACTIVE 0 0 0 0 0 true
                      (TimerRunning 2000) TimerStopped true 0 in
  let s5 := mk_system LED_STATUS_POWER_ON LED_PATTERN_STATE_COMPLETE 1 1 0 0 0 false
                      (TimerRunning 2000) TimerStopped false 0 in
  led_started led_patterns s2
  /\ led_run led_patterns enough_fuel (EvSet LED_STATUS_POWER_ON)
       (snd (led_status_indicator_init true true s2)) = Done s4
  /\ led_timer_callback led_patterns enough_fuel s4 = Done s5
  /\ led_reachable led_patterns s5
  /\ pattern_state s5 = LED_PATTERN_STATE_COMPLETE
  /\ is_running (timer_handle s5) = true.
Proof.
  cbv zeta.
  assert (H4 : led_run led_patterns enough_fuel (EvSet LED_STATUS_POWER_ON)
                 (snd (led_status_indicator_init true true
                         (mk_system LED_STATUS_BLE_PAIRING LED_PATTERN_STATE_ACTIVE
                                    0 0 0 0 0 true (TimerRunning 200) TimerStopped
                                    true 0)))
               = Done (mk_system LED_STATUS_POWER_ON LED_PATTERN_STATE_ACTIVE
                                 0 0 0 0 0 true (TimerRunning 2000) TimerStopped
                                 true 0))
    by (vm_compute; reflexivity).
  assert (H5 : led_timer_callback led_patterns enough_fuel
                 (mk_system LED_STATUS_POWER_ON LED_PATTERN_STATE_ACTIVE
                            0 0 0 0 0 true (TimerRunning 2000) TimerStopped true 0)
               = Done (mk_system LED_STATUS_POWER_ON LED_PATTERN_STATE_COMPLETE
                                 1 1 0 0 0 false (TimerRunning 2000) TimerStopped
                                 false 0))
    by (vm_compute; reflexivity).
  split.
  { apply (started_run led_patterns enough_fuel (EvSet LED_STATUS_BLE_PAIRING)
             (snd (led_status_indicator_init true true (static_system 0))));
      [apply started_init|vm_compute; reflexivity]. }
  split; [exact H4|]. split; [exact H5|].
  split; [|split; reflexivity].
  exact (reach_stale_step led_patterns enough_fuel _ _
           (reach_run led_patterns enough_fuel _ _ _
              (reach_init led_patterns _) H4) H5).
Qed.



(** X15: in every reachable state the current status is a valid index
    of the pattern table, phase IDLE goes with status OFF, and
    [repeat_counter] is 0: the sequencer resets it and never counts with
    it. *)
Theorem X15_status_in_range (table : list led_pattern_config_t) (s : led_system) :
  led_reachable table s ->
  (led_status_get_current s < LED_STATUS_MAX)%N
  /\ (pattern_state s = LED_PATTERN_STATE_IDLE ->
      led_status_get_current s = LED_STATUS_OFF)
  /\ repeat_counter s = 0.
Proof.
  intros Hr. destruct (reachable_context_invariant table s Hr)
    as (_ & Hlt & Hrc & _ & _ & _ & _ & Hidle & _).
  auto.
Qed.

Lemma X15_status_in_range_witness :
  let s := mk_system LED_STATUS_BLE_PAIRING LED_PATTERN_STATE_ACTIVE 0 0 0 0 0 true
                     (TimerRunning 200) TimerStopped true 0 in
  (led_status_get_current s < LED_STATUS_MAX)%N.
Proof.
  cbv zeta.
  apply (X15_status_in_range led_patterns
           (mk_system LED_STATUS_BLE_PAIRING LED_PATTERN_STATE_ACTIVE 0 0 0 0 0 true
                      (TimerRunning 200) TimerStopped true 0)).
  eapply (reach_run led_patterns enough_fuel (EvSet LED_STATUS_BLE_PAIRING));
    [apply (reach_init led_patterns (static_system 0))|reflexivity].
Defined.

(** X16: a step-timer callback that arrives while the sequencer is not
    ACTIVE changes nothing; in particular one that arrives after
    [led_status_stop] or after [led_status_set(LED_STATUS_OFF)]. *)
Theorem X16_stale_callback_ignored (table : list led_pattern_config_t)
    (fuel : nat) (s : led_system) :
  (pattern_state s <> LED_PATTERN_STATE_ACTIVE -> led_timer_callback table fuel s = Done s)
  /\ led_timer_callback table fuel (led_status_stop s) = Done (led_status_stop s)
  /\ led_timer_expires table fuel (led_status_stop s) = Done (led_status_stop s)
  /\ (forall fuel' r s',
        led_status_set table fuel' LED_STATUS_OFF s = Done (r, s') ->
        led_timer_callback table fuel s' = Done s').
Proof.
  split; [|split; [|split]].
  - intros Hna. unfold led_timer_callback.
    rewrite bool_decide_eq_false_2 by exact Hna. reflexivity.
  - reflexivity.
  - destruct s as [cs ps st fl rc t1 t2 led th ast bl tick].
    destruct th; reflexivity.
  - intros fuel' r s' Hset. cbn in Hset. injection Hset as <- <-. reflexivity.
Qed.

(** X17: [led_status_set] does not switch the LED off before it starts a
    pattern, so the first phase depends on the LED: from an LED that is
    off the pattern starts with its on phase (timer for [on_time_ms] of
    the first step); from an LED that is on it starts with the off phase
    (timer for [off_time_ms]) and one flash is already counted. *)
Theorem X17_first_phase_depends_on_led (table : list led_pattern_config_t)
    (fuel : nat) (status : led_status_t) (s : led_system)
    (config : led_pattern_config_t) (first : led_pattern_step_t)
    (rest : list led_pattern_step_t) :
  (status < LED_STATUS_MAX)%N ->
  status <> LED_STATUS_OFF ->
  status <> LED_STATUS_OTA_SUCCESS ->
  pattern_of table status = Done config ->
  steps config = Some (first :: rest) ->
  0 < step_count config ->
  0 < on_time_ms first ->
  0 < off_time_ms first ->
  exists s',
    led_status_set table (S (S fuel)) status s = Done (SL_STATUS_OK, s')
    /\ pattern_state s' = LED_PATTERN_STATE_ACTIVE
    /\ current_step s' = 0
    /\ led_state s' = negb (led_state s)
    /\ current_flash s' = (if led_state s then 1 else 0)
    /\ timer_handle s' =
         osTimerStart (osTimerStop (timer_handle s))
           (if led_state s then off_time_ms first else on_time_ms first).
Proof.
  intros Hlt Hoff Hota Htab Hsteps Hcount Hon Hofft.
  unfold led_status_set.
  destruct (N.leb_spec LED_STATUS_MAX status); [lia|].
  destruct (N.eqb_spec status LED_STATUS_OFF); [contradiction|].
  destruct (N.eqb_spec status LED_STATUS_OTA_SUCCESS); [contradiction|].
  cbn [orb].
  match goal with
  | |- context [led_start_next_step _ _ ?x] => set (s0 := x)
  end.
  rewrite (start_eq table (S fuel) s0 config) by exact Htab.
  change (current_step s0) with 0.
  destruct (Z.geb_spec 0 (step_count config)); [lia|].
  match goal with
  | |- context [led_process_current_step _ _ ?x] => set (s1 := x)
  end.
  assert (Hstep : step_at config (current_step s1) = Done first).
  { unfold step_at. rewrite Hsteps. reflexivity. }
  rewrite (process_eq table fuel s1 config first Htab Hstep).
  change (current_flash s1) with 0. change (led_state s1) with (led_state s).
  change (timer_handle s1) with (osTimerStop (timer_handle s)).
  replace ((0 >=? flash_count first) && (flash_count first >? 0)) with false
    by (destruct (Z.geb_spec 0 (flash_count first)),
          (Z.gtb_spec (flash_count first) 0); cbn; try reflexivity; lia).
  destruct (Z.eqb_spec (on_time_ms first) 0); [lia|]. cbn [andb].
  destruct (Z.gtb_spec (on_time_ms first) 0); [|lia].
  destruct (Z.gtb_spec (off_time_ms first) 0); [|lia].
  destruct (led_state s); cbn [negb]; rewrite bind_done;
    eexists; (split; [reflexivity|]); repeat split.
Qed.

Lemma X17_first_phase_depends_on_led_witness :
  let s := mk_system LED_STATUS_BLE_PAIRING LED_PATTERN_STATE_ACTIVE 0 0 0 0 0 true
                     (TimerRunning 200) TimerStopped true 0 in
  exists s',
    led_status_set led_patterns enough_fuel LED_STATUS_OTA_UPDATE s
    = Done (SL_STATUS_OK, s')
    /\ led_state s' = false
    /\ current_flash s' = 1
    /\ timer_handle s' = TimerRunning 2800.
Proof.
  cbv zeta.
  destruct (X17_first_phase_depends_on_led led_patterns 6 LED_STATUS_OTA_UPDATE
              (mk_system LED_STATUS_BLE_PAIRING LED_PATTERN_STATE_ACTIVE 0 0 0 0 0 true
                         (TimerRunning 200) TimerStopped true 0)
              (mk_config (Some pattern_ota_update) 1 false 0)
              (mk_step 200 2800 0 1) [])
    as (s' & Hrun & _ & _ & Hled & Hflash & Ht).
  - reflexivity.
  - discriminate.
  - discriminate.
  - reflexivity.
  - reflexivity.
  - cbn; lia.
  - cbn; lia.
  - cbn; lia.
  - exists s'. split; [exact Hrun|]. split; [exact Hled|]. split; [exact Hflash|exact Ht].
Defined.

(** X18: the three solid two-second patterns of [led_patterns]
    (POWER_ON, BLE_PAIR_SUCCESS, FACTORY_RESET) are shown only when the
    LED is off at the time of [led_status_set]: the LED goes on for 2000
    ms. When the LED is on, the same call turns it off and the pattern is
    COMPLETE at once, with no timer started. *)
Theorem X18_solid_pattern_needs_led_off (status : led_status_t) (s : led_system) :
  status ∈ [LED_STATUS_POWER_ON; LED_STATUS_BLE_PAIR_SUCCESS; LED_STATUS_FACTORY_RESET] ->
  exists s',
    led_status_set led_patterns enough_fuel status s = Done (SL_STATUS_OK, s')
    /\ led_status_get_current s' = status
    /\ (led_state s = false ->
        pattern_state s' = LED_PATTERN_STATE_ACTIVE
        /\ led_state s' = true
        /\ timer_handle s' = osTimerStart (osTimerStop (timer_handle s)) 2000)
    /\ (led_state s = true ->
        pattern_state s' = LED_PATTERN_STATE_COMPLETE
        /\ led_state s' = false
        /\ timer_handle s' = osTimerStop (timer_handle s)
        /\ auto_stop_timer s' = osTimerStop (auto_stop_timer s)).
Proof.
  intros Hst.
  destruct s as [cs ps st fl rc t1 t2 led th ast bl tick].
  repeat (apply elem_of_cons in Hst as [->|Hst]);
    try (apply elem_of_nil in Hst; destruct Hst);
    destruct led; eexists; (split; [vm_compute; reflexivity|]);
    (split; [reflexivity|]);
    split; intros; try discriminate; repeat split.
Qed.

Lemma X18_solid_pattern_needs_led_off_witness :
  let s := mk_system LED_STATUS_BLE_PAIRING LED_PATTERN_STATE_ACTIVE 0 0 0 0 0 true
                     (TimerRunning 200) TimerStopped true 0 in
  exists s',
    led_status_set led_patterns enough_fuel LED_STATUS_BLE_PAIR_SUCCESS s
    = Done (SL_STATUS_OK, s')
    /\ pattern_state s' = LED_PATTERN_STATE_COMPLETE
    /\ led_state s' = false.
Proof.
  cbv zeta.
  destruct (X18_solid_pattern_needs_led_off LED_STATUS_BLE_PAIR_SUCCESS
              (mk_system LED_STATUS_BLE_PAIRING LED_PATTERN_STATE_ACTIVE 0 0 0 0 0 true
                         (TimerRunning 200) TimerStopped true 0))
    as (s' & Hrun & _ & _ & Hon).
  - apply list_elem_of_further, list_elem_of_here.
  - exists s'. split; [exact Hrun|].
    destruct (Hon eq_refl) as (Hc & Hl & _). split; [exact Hc|exact Hl].
Defined.

(** ** The auto-stop timer on [led_patterns] *)






(** ** A pattern of one step with one flash that repeats for ever *)

Section Blink.

Variable table : list led_pattern_config_t.
Variable config : led_pattern_config_t.
Variable step : led_pattern_step_t.
Hypothesis Hsteps : steps config = Some [step].
Hypothesis Hcount : step_count config = 1.
Hypothesis Hrepeat : repeat_count step = 0.
Hypothesis Hflash : flash_count step = 1.
Hypothesis Hon : 0 < on_time_ms step.
Hypothesis Hoff : 0 < off_time_ms step.

Lemma blink_step_at (s : led_system) :
  current_step s = 0 -> step_at config (current_step s) = Done step.
Proof. intros ->. unfold step_at. rewrite Hsteps. reflexivity. Qed.

Lemma blink_expiry (on : bool) (fuel : nat) (s : led_system) :
  pattern_of table (current_status s) = Done config ->
  blink_phase on s ->
  exists s',
    led_timer_expires table (S (S (S fuel))) s = Done s'
    /\ current_status s' = current_status s
    /\ blink_phase (negb on) s'
    /\ timer_handle s' =
         osTimerStart (expired (timer_handle s))
           (if on then off_time_ms step else on_time_ms step).
Proof.
  intros Htab (Hact & Hstep & Hled & Hfl).
  unfold led_timer_expires, led_timer_callback.
  cbn [pattern_state set_timer_handle].
  rewrite bool_decide_eq_true_2 by exact Hact.
  set (s0 := set_timer_handle (expired (timer_handle s)) s).
  assert (Htab0 : pattern_of table (current_status s0) = Done config) by exact Htab.
  assert (Hat : step_at config (current_step s0) = Done step)
    by (apply blink_step_at; exact Hstep).
  rewrite (process_eq table _ s0 config step Htab0 Hat).
  change (current_flash s0) with (current_flash s).
  change (led_state s0) with (led_state s).
  rewrite Hfl, Hled, Hflash.
  destruct (Z.eqb_spec (on_time_ms step) 0); [lia|]. cbn [andb].
  destruct (Z.gtb_spec (on_time_ms step) 0); [|lia].
  destruct (Z.gtb_spec (off_time_ms step) 0); [|lia].
  destruct on; cbn [negb Z.geb Z.gtb Z.compare andb Pos.compare Pos.compare_cont].
  - eexists. split; [reflexivity|]. split; [reflexivity|].
    split; [|reflexivity].
    unfold blink_phase. cbn. rewrite ?Hact, ?Hstep, ?Hfl. repeat split.
  - set (s1 := set_current_step (incr_u8 (current_step s0)) s0).
    rewrite (start_eq table _ s1 config) by exact Htab.
    change (current_step s1) with (incr_u8 (current_step s)).
    rewrite Hstep, Hcount. cbn [incr_u8 Z.add Z.modulo Z.div_eucl Z.geb Z.compare].
    change (incr_u8 0 >=? 1) with true. cbv iota.
    assert (Hfirst : step_at config 0 = Done step)
      by (unfold step_at; rewrite Hsteps; reflexivity).
    rewrite Hfirst, bind_done, Hrepeat. cbn [Z.eqb].
    match goal with
    | |- context [led_process_current_step _ _ ?x] => set (s2 := x)
    end.
    assert (Hat2 : step_at config (current_step s2) = Done step) by exact Hfirst.
    rewrite (process_eq table _ s2 config step Htab Hat2).
    change (current_flash s2) with 0. change (led_state s2) with (led_state s).
    rewrite Hled, Hflash. cbn [Z.geb Z.gtb Z.compare andb negb].
    destruct (Z.eqb_spec (on_time_ms step) 0); [lia|]. cbn [andb].
    destruct (Z.gtb_spec (on_time_ms step) 0); [|lia].
    eexists. split; [reflexivity|]. split; [reflexivity|].
    split; [|reflexivity].
    unfold blink_phase. cbn. rewrite ?Hact. repeat split.
Qed.

Lemma blink_expiries (n : nat) (s : led_system) :
  pattern_of table (current_status s) = Done config ->
  blink_phase true s ->
  exists s',
    led_timer_expires_n table enough_fuel n s = Done s'
    /\ current_status s' = current_status s
    /\ blink_phase (Nat.even n) s'
    /\ (timer_handle s <> TimerNull -> (0 < n)%nat ->
        timer_handle s' =
          TimerRunning (if Nat.even n then on_time_ms step else off_time_ms step)).
Proof.
  assert (Hgen : forall n on s,
             pattern_of table (current_status s) = Done config ->
             blink_phase on s ->
             exists s',
               led_timer_expires_n table enough_fuel n s = Done s'
               /\ current_status s' = current_status s
               /\ blink_phase (if Nat.even n then on else negb on) s'
               /\ (timer_handle s <> TimerNull -> (0 < n)%nat ->
                   timer_handle s' =
                     TimerRunning (if (if Nat.even n then on else negb on)
                                   then on_time_ms step else off_time_ms step))).
  { clear n s. induction n as [|n IH]; intros on s Htab Hph.
    - exists s. split; [reflexivity|]. split; [reflexivity|].
      split; [exact Hph|intros; lia].
    - destruct (blink_expiry on 5 s Htab Hph) as (s1 & Hrun & Hst & Hph1 & Ht1).
      destruct (IH (negb on) s1) as (s' & Hrun' & Hst' & Hph' & Ht');
        [rewrite Hst; exact Htab|exact Hph1|].
      exists s'. cbn [led_timer_expires_n].
      change enough_fuel with 8%nat in *. rewrite Hrun, bind_done.
      split; [exact Hrun'|]. split; [congruence|].
      rewrite Nat.even_succ, <- Nat.negb_even.
      destruct (Nat.even n) eqn:He; cbn [negb] in *; rewrite ?negb_involutive in *.
      + split; [exact Hph'|]. intros Hnn _.
        destruct n as [|n].
        * cbn in Hrun'. injection Hrun' as <-. rewrite Ht1.
          destruct (timer_handle s), on; try contradiction; reflexivity.
        * apply Ht'; [|lia]. rewrite Ht1.
          destruct (timer_handle s); try contradiction; discriminate.
      + split; [exact Hph'|]. intros Hnn _.
        destruct n as [|n]; [discriminate He|].
        apply Ht'; [|lia]. rewrite Ht1.
        destruct (timer_handle s); try contradiction; discriminate. }
  intros Htab Hph.
  destruct (Hgen n true s Htab Hph) as (s' & Hrun & Hst & Hph' & Ht).
  exists s'. split; [exact Hrun|]. split; [exact Hst|].
  destruct (Nat.even n); cbn [negb] in *; auto.
Qed.

End Blink.

(** X20: a pattern that is one step with one flash, positive on and off
    times and [repeat_count == 0] (BLE_PAIRING, OTA_UPDATE) blinks for
    ever: started in its on phase, after [n] expiries of the step timer
    it is ACTIVE at step 0 with the LED on exactly for even [n], and the
    timer runs for the on time, respectively the off time. *)
Theorem X20_single_flash_blinks (table : list led_pattern_config_t)
    (config : led_pattern_config_t) (step : led_pattern_step_t)
    (n : nat) (s : led_system) :
  steps config = Some [step] ->
  step_count config = 1 ->
  repeat_count step = 0 ->
  flash_count step = 1 ->
  0 < on_time_ms step ->
  0 < off_time_ms step ->
  pattern_of table (current_status s) = Done config ->
  blink_phase true s ->
  exists s',
    led_timer_expires_n table enough_fuel n s = Done s'
    /\ current_status s' = current_status s
    /\ blink_phase (Nat.even n) s'
    /\ (timer_handle s <> TimerNull -> (0 < n)%nat ->
        timer_handle s' =
          TimerRunning (if Nat.even n then on_time_ms step else off_time_ms step)).
Proof.
  intros H1 H2 H3 H4 H5 H6. apply (blink_expiries table config step H1 H2 H3 H4 H5 H6).
Qed.

Lemma X20_single_flash_blinks_witness :
  let s := mk_system LED_STATUS_BLE_PAIRING LED_PATTERN_STATE_ACTIVE 0 0 0 0 0 true
                     (TimerRunning 200) TimerStopped true 0 in
  exists s',
    led_timer_expires_n led_patterns enough_fuel 3 s = Done s'
    /\ led_state s' = false
    /\ timer_handle s' = TimerRunning 800.
Proof.
  cbv zeta.
  destruct (X20_single_flash_blinks led_patterns
              (mk_config (Some pattern_ble_pairing) 1 false 0)
              (mk_step 200 800 0 1) 3
              (mk_system LED_STATUS_BLE_PAIRING LED_PATTERN_STATE_ACTIVE 0 0 0 0 0 true
                         (TimerRunning 200) TimerStopped true 0))
    as (s' & Hrun & _ & (_ & _ & Hled & _) & Ht).
  - reflexivity.
  - reflexivity.
  - reflexivity.
  - reflexivity.
  - cbn; lia.
  - cbn; lia.
  - reflexivity.
  - repeat split.
  - exists s'. split; [exact Hrun|]. split; [exact Hled|].
    apply Ht; [discriminate|lia].
Defined.

(** ** The convenience functions *)

Lemma populated_set_returns (status : led_status_t) (s : led_system) :
  status ∈ populated ->
  exists s',
    led_status_set led_patterns enough_fuel status s = Done (SL_STATUS_OK, s')
    /\ current_status s' = status.
Proof.
  intros Hpop. destruct (populated_set_safe status 0 s Hpop) as (s1 & _ & H & Hst & _).
  exists s1. auto.
Qed.

Ltac convenience :=
  intros s;
  match goal with
  | |- context [led_status_set led_patterns enough_fuel ?st s] =>
      destruct (populated_set_returns st s) as (s' & Hrun & Hst);
        [unfold populated; repeat first [apply list_elem_of_here | apply list_elem_of_further]|];
        exists s'; split; [|split; [exact Hrun|exact Hst]]
  end.

(** X21: every convenience function the source defines passes a status
    that [led_patterns] has an entry for, so on every state it returns
    (no fault) with that status current; the three statuses without an
    entry can only be reached through [led_status_set] itself. *)
Theorem X21_convenience_functions_return :
  sets_status led_status_power_on LED_STATUS_POWER_ON
  /\ sets_status led_status_ble_enter_pairing LED_STATUS_BLE_PAIRING
  /\ sets_status led_status_ble_pairing_success LED_STATUS_BLE_PAIR_SUCCESS
  /\ sets_status led_status_ble_pairing_failed LED_STATUS_BLE_PAIR_FAIL
  /\ sets_status led_status_factory_reset LED_STATUS_FACTORY_RESET
  /\ sets_status led_status_ota_update_start LED_STATUS_OTA_UPDATE
  /\ sets_status led_status_ota_update_success LED_STATUS_OTA_SUCCESS
  /\ sets_status led_status_ota_update_failed LED_STATUS_OTA_FAIL.
Proof.
  repeat split; convenience;
    [unfold led_status_power_on | unfold led_status_ble_enter_pairing
    | unfold led_status_ble_pairing_success | unfold led_status_ble_pairing_failed
    | unfold led_status_factory_reset | unfold led_status_ota_update_start
    | unfold led_status_ota_update_success | unfold led_status_ota_update_failed];
    rewrite Hrun; reflexivity.
Qed.

(** X22: on [led_patterns] the pairing-failure and OTA-failure patterns
    are finite although their table comments announce a repetition:
    started with the LED off and both timers created, they are COMPLETE
    with the LED off after 9, respectively 7, expiries of the step timer
    (the first step's [repeat_count] is 1). *)
Theorem X22_failure_patterns_end (s : led_system) :
  led_state s = false ->
  timer_handle s <> TimerNull ->
  (exists s1 s',
      led_status_set led_patterns enough_fuel LED_STATUS_BLE_PAIR_FAIL s
      = Done (SL_STATUS_OK, s1)
      /\ led_timer_expires_n led_patterns enough_fuel 9 s1 = Done s'
      /\ pattern_state s' = LED_PATTERN_STATE_COMPLETE
      /\ led_state s' = false
      /\ current_status s' = LED_STATUS_BLE_PAIR_FAIL
      /\ (exists s8, led_timer_expires_n led_patterns enough_fuel 8 s1 = Done s8
                     /\ pattern_state s8 = LED_PATTERN_STATE_ACTIVE))
  /\ (exists s1 s',
        led_status_set led_patterns enough_fuel LED_STATUS_OTA_FAIL s
        = Done (SL_STATUS_OK, s1)
        /\ led_timer_expires_n led_patterns enough_fuel 7 s1 = Done s'
        /\ pattern_state s' = LED_PATTERN_STATE_COMPLETE
        /\ led_state s' = false
        /\ current_status s' = LED_STATUS_OTA_FAIL
        /\ (exists s6, led_timer_expires_n led_patterns enough_fuel 6 s1 = Done s6
                       /\ pattern_state s6 = LED_PATTERN_STATE_ACTIVE)).
Proof.
  destruct s as [cs ps st fl rc t1 t2 led th ast bl tick].
  cbn [led_state timer_handle]. intros -> Hth.
  destruct th; [contradiction| |];
    (split; do 2 eexists; (split; [vm_compute; reflexivity|]);
     (split; [vm_compute; reflexivity|]);
     do 3 (split; [reflexivity|]); eexists;
     (split; [vm_compute; reflexivity|reflexivity])).
Qed.

Lemma X22_failure_patterns_end_witness :
  exists s1 s',
    led_status_set led_patterns enough_fuel LED_STATUS_OTA_FAIL
      (snd (led_status_indicator_init true true (static_system 0)))
    = Done (SL_STATUS_OK, s1)
    /\ led_timer_expires_n led_patterns enough_fuel 7 s1 = Done s'
    /\ pattern_state s' = LED_PATTERN_STATE_COMPLETE.
Proof.
  destruct (X22_failure_patterns_end
              (snd (led_status_indicator_init true true (static_system 0))))
    as (_ & s1 & s' & Hset & Hrun & Hc & _).
  - reflexivity.
  - discriminate.
  - exists s1, s'. split; [exact Hset|]. split; [exact Hrun|exact Hc].
Defined.

(** X23: whatever the table, a call of [led_status_set] that returns
    reports SL_STATUS_INVALID_PARAMETER exactly for a status outside the
    enumeration, and then changes nothing; otherwise it reports
    SL_STATUS_OK, [led_status_get_current] is the status set, the phase is
    ACTIVE or COMPLETE (never IDLE), [pattern_start_time] is the tick of
    the call, and if the sequencer is not active the LED is off. *)
Theorem X23_set_then_get (table : list led_pattern_config_t) (fuel : nat)
    (status : led_status_t) (s : led_system) (r : sl_status_t) (s' : led_system) :
  led_status_set table fuel status s = Done (r, s') ->
  (r = SL_STATUS_INVALID_PARAMETER <-> (LED_STATUS_MAX <= status)%N)
  /\ (r = SL_STATUS_OK <-> (status < LED_STATUS_MAX)%N)
  /\ (r = SL_STATUS_INVALID_PARAMETER -> s' = s)
  /\ (r = SL_STATUS_OK ->
      led_status_get_current s' = status
      /\ pattern_state s' <> LED_PATTERN_STATE_IDLE
      /\ pattern_start_time s' = kernel_tick s
      /\ blue_led s' = led_state s'
      /\ (led_status_is_active s' = false -> led_state s' = false)).
Proof.
  intros Hrun. apply set_effects in Hrun.
  destruct Hrun as [(Hout & -> & ->)|(Hin & -> & Hst & _ & Hpt & Hm & Hcase)].
  - repeat split; intros; try discriminate; try assumption; try reflexivity; lia.
  - repeat split; intros; try discriminate; try assumption; try reflexivity;
      try lia.
    + destruct Hcase as [(Hps & _)|(Hps & _)]; rewrite Hps; discriminate.
    + destruct Hcase as [(Hps & _)|(_ & Hoff & _)]; [|exact Hoff].
      unfold led_status_is_active in *. rewrite Hps in *.
      rewrite bool_decide_eq_true_2 in * by reflexivity. discriminate.
Qed.

Lemma X23_set_then_get_witness :
  led_status_get_current
    (mk_system LED_STATUS_BLE_PAIRING LED_PATTERN_STATE_ACTIVE 0 0 0 7 7 true
               (TimerRunning 200) TimerStopped true 7)
  = LED_STATUS_BLE_PAIRING.
Proof.
  apply (X23_set_then_get led_patterns enough_fuel LED_STATUS_BLE_PAIRING
           (snd (led_status_indicator_init true true (static_system 7)))
           SL_STATUS_OK
           (mk_system LED_STATUS_BLE_PAIRING LED_PATTERN_STATE_ACTIVE 0 0 0 7 7 true
                      (TimerRunning 200) TimerStopped true 7));
    reflexivity.
Defined.

Section Repeats.
Variable table : list led_pattern_config_t.

Lemma pattern_of_forget (status : led_status_t) :
  pattern_of (forget_repeats <$> table) status
  = match pattern_of table status with
    | Done config => Done (forget_repeats config)
    | Fault => Fault
    | OutOfFuel => OutOfFuel
    end.
Proof.
  unfold pattern_of. rewrite list_lookup_fmap.
  destruct (table !! N.to_nat status); reflexivity.
Qed.

Lemma step_at_forget (config : led_pattern_config_t) (i : Z) :
  step_at (forget_repeats config) i
  = match step_at config i with
    | Done step => Done (forget_repeat (i =? 0) step)
    | Fault => Fault
    | OutOfFuel => OutOfFuel
    end.
Proof.
  unfold step_at. cbn [steps forget_repeats].
  destruct (steps config) as [l|]; [|reflexivity]. cbn [fmap option_fmap option_map].
  destruct (Z.ltb_spec i 0); [reflexivity|].
  destruct l as [|first rest]; [reflexivity|].
  destruct (Z.eqb_spec i 0) as [->|Hne]; [reflexivity|].
  destruct (Z.to_nat i) as [|n] eqn:Hn; [lia|].
  cbn [forget_repeats_of lookup list_lookup]. 
  change (map (forget_repeat false) rest !! n)
    with ((forget_repeat false <$> rest) !! n).
  rewrite list_lookup_fmap.
  change ((first :: rest) !! S n) with (rest !! n).
  destruct (rest !! n); reflexivity.
Qed.

Lemma forget_repeat_zero (step : led_pattern_step_t) :
  (repeat_count (forget_repeat true step) =? 0) = (repeat_count step =? 0).
Proof. cbn. destruct (Z.eqb_spec (repeat_count step) 0); reflexivity. Qed.

Lemma stepping_forgets_repeats (fuel : nat) :
  (forall s, led_start_next_step (forget_repeats <$> table) fuel s
             = led_start_next_step table fuel s)
  /\ (forall s, led_process_current_step (forget_repeats <$> table) fuel s
                = led_process_current_step table fuel s).
Proof.
  induction fuel as [|fuel [IHs IHp]]; [split; reflexivity|].
  split; intros s.
  - cbn [led_start_next_step]. rewrite pattern_of_forget.
    destruct (pattern_of table (current_status s)) as [config| |];
      cbn [mbind outcome_bind]; try reflexivity.
    change (step_count (forget_repeats config)) with (step_count config).
    change (auto_stop (forget_repeats config)) with (auto_stop config).
    change (auto_stop_delay_ms (forget_repeats config))
      with (auto_stop_delay_ms config).
    destruct (current_step s >=? step_count config); [|apply IHp].
    rewrite step_at_forget.
    destruct (step_at config 0) as [first| |]; cbn [mbind outcome_bind];
      try reflexivity.
    change (0 =? 0) with true. rewrite forget_repeat_zero.
    destruct (repeat_count first =? 0); [apply IHp|reflexivity].
  - cbn [led_process_current_step]. rewrite pattern_of_forget.
    destruct (pattern_of table (current_status s)) as [config| |];
      cbn [mbind outcome_bind]; try reflexivity.
    rewrite step_at_forget.
    destruct (step_at config (current_step s)) as [step| |];
      cbn [mbind outcome_bind]; try reflexivity.
    cbn [flash_count on_time_ms off_time_ms forget_repeat].
    destruct ((current_flash s >=? flash_count step) && (flash_count step >? 0));
      [apply IHs|].
    destruct ((on_time_ms step =? 0) && (off_time_ms step =? 0)); [reflexivity|].
    destruct (negb (led_state s)).
    + destruct (on_time_ms step >? 0); [reflexivity|apply IHp].
    + destruct (off_time_ms step >? 0); [reflexivity|apply IHp].
Qed.

End Repeats.

(** X24: the sequencer reads [repeat_count] of the first step of a
    pattern only, and only whether it is 0: replacing every first step's
    count by 0 or 1 accordingly and every other step's count by 0 changes
    the result of no call of [led_status_set] and of no timer callback. *)
Theorem X24_only_first_repeat_count_matters (table : list led_pattern_config_t)
    (fuel : nat) (status : led_status_t) (s : led_system) :
  led_status_set (forget_repeats <$> table) fuel status s
  = led_status_set table fuel status s
  /\ led_timer_callback (forget_repeats <$> table) fuel s
     = led_timer_callback table fuel s
  /\ led_timer_expires (forget_repeats <$> table) fuel s
     = led_timer_expires table fuel s.
Proof.
  pose proof (stepping_forgets_repeats table fuel) as [Hs Hp].
  unfold led_timer_expires, led_status_set, led_timer_callback.
  rewrite Hs, !Hp. auto.
Qed.

Section Endless.
Variable table : list led_pattern_config_t.
Variable config : led_pattern_config_t.
Variable step : led_pattern_step_t.
Hypothesis Hrange : step_in_range step.

Lemma endless_stays (s : led_system) :
  endless_step step s ->
  (current_flash s >=? flash_count step) && (flash_count step >? 0) = false.
Proof.
  intros [Hz|(_ & _ & Hlt)];
    destruct (Z.geb_spec (current_flash s) (flash_count step)),
      (Z.gtb_spec (flash_count step) 0); cbn; try reflexivity; lia.
Qed.

Lemma endless_expiry (fuel : nat) (s : led_system) :
  pattern_of table (current_status s) = Done config ->
  step_at config (current_step s) = Done step ->
  pattern_state s = LED_PATTERN_STATE_ACTIVE ->
  endless_step step s ->
  exists s',
    led_timer_expires table (S (S fuel)) s = Done s'
    /\ pattern_state s' = LED_PATTERN_STATE_ACTIVE
    /\ current_step s' = current_step s
    /\ current_status s' = current_status s
    /\ endless_step step s'.
Proof.
  intros Htab Hstep Hact Hend.
  destruct Hrange as (Hon & Hoff & _ & Hfc).
  unfold led_timer_expires, led_timer_callback.
  cbn [pattern_state set_timer_handle].
  rewrite bool_decide_eq_true_2 by exact Hact.
  set (s0 := set_timer_handle (expired (timer_handle s)) s).
  assert (Hend0 : endless_step step s0) by exact Hend.
  rewrite (process_eq table _ s0 config step Htab Hstep).
  rewrite (endless_stays s0 Hend0).
  destruct (Z.eqb_spec (on_time_ms step) 0) as [Hon0|Hon0];
    destruct (Z.eqb_spec (off_time_ms step) 0) as [Hoff0|Hoff0]; cbn [andb].
  - eexists. split; [reflexivity|]. repeat split; assumption.
  - assert (Hz : flash_count step = 0) by (destruct Hend as [?|(_ & ? & _)]; [assumption|lia]).
    destruct (led_state s0) eqn:Hled; cbn [negb].
    + destruct (Z.gtb_spec (off_time_ms step) 0); [|lia].
      eexists. split; [reflexivity|]. repeat split; try assumption; left; exact Hz.
    + destruct (Z.gtb_spec (on_time_ms step) 0); [lia|].
      set (s1 := led_set_physical_state true s0).
      assert (Hend1 : endless_step step s1) by (left; exact Hz).
      rewrite (process_eq table _ s1 config step Htab Hstep).
      rewrite (endless_stays s1 Hend1).
      destruct (Z.eqb_spec (on_time_ms step) 0); [|lia].
      destruct (Z.eqb_spec (off_time_ms step) 0); [lia|]. cbn [andb negb led_state s1 led_set_physical_state].
      change (led_state s1) with true. cbn [negb].
      destruct (Z.gtb_spec (off_time_ms step) 0); [|lia].
      eexists. split; [reflexivity|]. repeat split; try assumption; left; exact Hz.
  - assert (Hz : flash_count step = 0) by (destruct Hend as [?|(? & _)]; [assumption|lia]).
    destruct (led_state s0) eqn:Hled; cbn [negb].
    + destruct (Z.gtb_spec (off_time_ms step) 0); [lia|].
      set (s1 := led_set_physical_state false
                   (set_current_flash (incr_u8 (current_flash s0)) s0)).
      assert (Hend1 : endless_step step s1) by (left; exact Hz).
      rewrite (process_eq table _ s1 config step Htab Hstep).
      rewrite (endless_stays s1 Hend1).
      destruct (Z.eqb_spec (on_time_ms step) 0); [lia|]. cbn [andb].
      change (led_state s1) with false. cbn [negb].
      destruct (Z.gtb_spec (on_time_ms step) 0); [|lia].
      eexists. split; [reflexivity|]. repeat split; try assumption; left; exact Hz.
    + destruct (Z.gtb_spec (on_time_ms step) 0); [|lia].
      eexists. split; [reflexivity|]. repeat split; try assumption; left; exact Hz.
  - assert (Hz : flash_count step = 0) by (destruct Hend as [?|(? & _)]; [assumption|lia]).
    destruct (led_state s0) eqn:Hled; cbn [negb].
    + destruct (Z.gtb_spec (off_time_ms step) 0); [|lia].
      eexists. split; [reflexivity|]. repeat split; try assumption; left; exact Hz.
    + destruct (Z.gtb_spec (on_time_ms step) 0); [|lia].
      eexists. split; [reflexivity|]. repeat split; try assumption; left; exact Hz.
Qed.

End Endless.

(** X25: a step whose [flash_count] is 0, or whose on and off times are
    both 0 (entered, as always, with no flash counted), is never left by
    the step-advance logic: after any number of expiries of the step
    timer the pattern is still ACTIVE at that step. *)
Theorem X25_endless_step_is_never_left (table : list led_pattern_config_t)
    (config : led_pattern_config_t) (step : led_pattern_step_t)
    (n : nat) (s : led_system) :
  step_in_range step ->
  pattern_of table (current_status s) = Done config ->
  step_at config (current_step s) = Done step ->
  pattern_state s = LED_PATTERN_STATE_ACTIVE ->
  endless_step step s ->
  exists s',
    led_timer_expires_n table enough_fuel n s = Done s'
    /\ pattern_state s' = LED_PATTERN_STATE_ACTIVE
    /\ current_step s' = current_step s
    /\ current_status s' = current_status s.
Proof.
  intros Hrange. revert s.
  induction n as [|n IH]; intros s Htab Hstep Hact Hend.
  - exists s. auto.
  - destruct (endless_expiry table config step Hrange 6 s Htab Hstep Hact Hend)
      as (s1 & Hrun & Hact1 & Hcs1 & Hst1 & Hend1).
    destruct (IH s1) as (s' & Hrun' & Hact' & Hcs' & Hst');
      [rewrite Hst1; exact Htab|rewrite Hcs1; exact Hstep|exact Hact1|exact Hend1|].
    exists s'. cbn [led_timer_expires_n]. change enough_fuel with 8%nat in *.
    rewrite Hrun, bind_done.
    split; [exact Hrun'|]. split; [exact Hact'|]. split; congruence.
Qed.

Lemma X25_endless_step_is_never_left_witness :
  let table := [mk_config (Some [mk_step 300 300 1 0; mk_step 100 100 1 1]) 2 false 0] in
  let s := mk_system 0%N LED_PATTERN_STATE_ACTIVE 0 0 0 0 0 true
                     (TimerRunning 300) TimerStopped true 0 in
  exists s',
    led_timer_expires_n table enough_fuel 600 s = Done s'
    /\ current_step s' = 0.
Proof.
  cbv zeta.
  destruct (X25_endless_step_is_never_left
              [mk_config (Some [mk_step 300 300 1 0; mk_step 100 100 1 1]) 2 false 0]
              (mk_config (Some [mk_step 300 300 1 0; mk_step 100 100 1 1]) 2 false 0)
              (mk_step 300 300 1 0) 600
              (mk_system 0%N LED_PATTERN_STATE_ACTIVE 0 0 0 0 0 true
                         (TimerRunning 300) TimerStopped true 0))
    as (s' & Hrun & _ & Hstep & _).
  - unfold step_in_range; cbn; lia.
  - reflexivity.
  - reflexivity.
  - reflexivity.
  - left; reflexivity.
  - exists s'. split; [exact Hrun|exact Hstep].
Defined.

End LedStatusIndicatorCoverage.
